(** * Dandanplay danmaku service (addons/service.dandanplay/service.py)

    A shallow embedding of the two classes that carry the logic of the
    service, [DandanplayClient] (token cache, login, HTTP requests with
    the 401 retry, match selection) and [DanmakuLayout] (lane
    allocation and rendering of comments as ASS dialogue lines), with
    the properties the specification states about them.

    Conventions of the embedding.
    - Python [float] values are rationals ([Q]): arithmetic is exact and
      the non-finite floats are not represented.  The embedding covers
      the runs in which every float is finite: [float()] gives a number
      or raises, no sum leaves the range of a float, and an [int] given
      to [float()] is within that range.  The rounding of the binary
      arithmetic is not modelled; the properties stated below that
      depend on the value of a fraction are stated where the rounding
      cannot change the outcome, and the times used in the concrete
      runs are dyadic, so that the binary arithmetic of the interpreter
      is exact on them as well.
    - Python [int] values are [Z].
    - A Python [str] is a [string], with the characters of [ascii]: the
      texts covered are those of characters below 256.
    - A [dict] decoded from JSON is a [gmap string pyval].
    - Objects with mutable attributes are records threaded through the
      methods; a method returns its result together with the object
      after the call.
    - Exceptions are values of [exn]; a call returns [Ok v] or
      [Raise e].
    - A [bytes] value is a [list byte].
    - Calls of [log] change nothing that is modelled and are left out,
      as are the timeout passed to [urlopen] and the lock held by
      [ensure_token]: the methods run one at a time. *)

From Stdlib Require Import QArith Qround Lqa ZArith String Ascii List Lia.
From Stdlib Require Import DecimalString Strings.Byte.
From stdpp Require Import gmap strings list fin_maps.

(** ** Python values and builtins *)

Inductive exn : Type :=
  | ValueError
  | IndexError
  | AttributeError
  | TypeError
  | KeyError
  | HTTPError (code : Z)
  | URLError
  | OSError.

Inductive result (A : Type) : Type :=
  | Ok (a : A)
  | Raise (e : exn).
Arguments Ok {A} a.
Arguments Raise {A} e.

(** A value decoded from JSON. *)
#[warnings="-register-all"]
Inductive pyval : Type :=
| VNone
| VBool (b : bool)
| VInt (n : Z)
| VFloat (x : Q)
| VStr (s : string)
| VList (l : list pyval)
| VDict (d : gmap string pyval).

Module Py.

(** [x < y] on floats. *)
Definition float_lt (x y : Q) : bool := negb (Qle_bool y x).

(** [bool(v)]. *)
Definition truthy (v : pyval) : bool :=
  match v with
  | VNone => false
  | VBool b => b
  | VInt n => negb (n =? 0)%Z
  | VFloat x => negb (Qeq_bool x 0)
  | VStr s => negb (String.eqb s "")
  | VList l => match l with [] => false | _ :: _ => true end
  | VDict d => negb (size d =? 0)%nat
  end.

(** [d.get(key)]. *)
Definition get (d : gmap string pyval) (key : string) : pyval :=
  default VNone (d !! key).

(** [str(v)]: the string itself, or the text [repr] gives for a value
    that is not a string. *)
Definition str (repr : pyval → string) (v : pyval) : string :=
  match v with
  | VStr s => s
  | _ => repr v
  end.

(** [float(v)] for [isinstance(v, (int, float))]; [bool] is a subclass
    of [int]. *)
Definition as_number (v : pyval) : option Q :=
  match v with
  | VBool b => Some (if b then 1%Q else 0%Q)
  | VInt n => Some (inject_Z n)
  | VFloat x => Some x
  | _ => None
  end.

(** [a or b]. *)
Definition or_else (a b : pyval) : pyval := if truthy a then a else b.

(** [s.split(sep)] for a separator of one character. *)
Fixpoint split (sep : ascii) (s : string) : list string :=
  match s with
  | EmptyString => [EmptyString]
  | String a s' =>
      if Ascii.eqb a sep then EmptyString :: split sep s'
      else match split sep s' with
           | [] => [String a EmptyString]
           | part :: parts => String a part :: parts
           end
  end.

(** [sep.join(items)]. *)
Fixpoint join (sep : string) (items : list string) : string :=
  match items with
  | [] => ""
  | [item] => item
  | item :: rest => item +:+ sep +:+ join sep rest
  end.

(** [c.isspace()] for the characters below 256. *)
Definition isspace (c : ascii) : bool :=
  let n := N_of_ascii c in
  ((9 <=? n) && (n <=? 13) || (28 <=? n) && (n <=? 32) || (n =? 133) || (n =? 160))%N.

Fixpoint lstrip (s : string) : string :=
  match s with
  | EmptyString => EmptyString
  | String a s' => if isspace a then lstrip s' else s
  end.

Fixpoint rstrip (s : string) : string :=
  match s with
  | EmptyString => EmptyString
  | String a s' =>
      match rstrip s' with
      | EmptyString => if isspace a then EmptyString else String a EmptyString
      | r => String a r
      end
  end.

(** [s.strip()]. *)
Definition strip (s : string) : string := rstrip (lstrip s).

(** [s.replace(old, new)] for [old] of one character. *)
Fixpoint replace (old : ascii) (new : string) (s : string) : string :=
  match s with
  | EmptyString => EmptyString
  | String a s' =>
      if Ascii.eqb a old then new +:+ replace old new s'
      else String a (replace old new s')
  end.

(** Readers of plain decimal literals: an optional sign and digits, for
    floats an optional fraction after a point.  On these literals they
    agree with [int()] and [float()]; they serve to run the model on
    concrete inputs. *)
Definition digit_of (c : ascii) : option Z :=
  let n := Z.of_N (N_of_ascii c) in
  if ((48 <=? n) && (n <=? 57))%Z then Some (n - 48)%Z else None.

Fixpoint read_digits (s : string) (acc : Z) : option Z :=
  match s with
  | EmptyString => Some acc
  | String a s' =>
      match digit_of a with
      | Some d => read_digits s' (10 * acc + d)%Z
      | None => None
      end
  end.

Definition read_unsigned (s : string) : option Z :=
  match s with
  | EmptyString => None
  | _ => read_digits s 0%Z
  end.

Definition dec_int (s : string) : option Z :=
  match s with
  | String "-"%char s' => Z.opp <$> read_unsigned s'
  | String "+"%char s' => read_unsigned s'
  | _ => read_unsigned s
  end.

Definition read_fraction (s : string) : option Q :=
  match split "."%char s with
  | [whole] => inject_Z <$> read_unsigned whole
  | [whole; frac] =>
      match read_unsigned whole, read_unsigned frac with
      | Some w, Some f =>
          Some (Qred (Qmake (w * 10 ^ Z.of_nat (String.length frac) + f)
                            (Z.to_pos (10 ^ Z.of_nat (String.length frac)))))
      | _, _ => None
      end
  | _ => None
  end.

Definition dec_float (s : string) : option Q :=
  match s with
  | String "-"%char s' => Qopp <$> read_fraction s'
  | String "+"%char s' => read_fraction s'
  | _ => read_fraction s
  end.

(** [int(x)] on a float: truncation toward zero. *)
Definition int_of_float (x : Q) : Z := Z.quot (Qnum x) (Zpos (Qden x)).

(** [round(x)] on a float: the nearest integer, ties to the even one. *)
Definition round (x : Q) : Z :=
  let f := Qfloor x in
  match (x - inject_Z f ?= 1 # 2)%Q with
  | Lt => f
  | Gt => (f + 1)%Z
  | Eq => if Z.even f then f else (f + 1)%Z
  end.

(** [max(a, b)]: the first argument unless the second is larger. *)
Definition max_int (a b : Z) : Z := if (a <? b)%Z then b else a.

Definition digits (n : Z) : string :=
  NilZero.string_of_uint (N.to_uint (Z.to_N (Z.abs n))).

Fixpoint zeros (n : nat) : string :=
  match n with
  | O => ""
  | S n' => String "0"%char (zeros n')
  end.

Definition zfill (w : nat) (s : string) : string :=
  zeros (w - String.length s) +:+ s.

(** [f"{n:d}"]. *)
Definition fmt_d (n : Z) : string :=
  if (n <? 0)%Z then "-" +:+ digits n else digits n.

(** [f"{n:02d}"]: the sign counts in the width. *)
Definition fmt_02d (n : Z) : string :=
  if (n <? 0)%Z then "-" +:+ zfill 1 (digits n) else zfill 2 (digits n).

Definition hex_digit (d : Z) : ascii :=
  if (d <? 10)%Z then ascii_of_N (Z.to_N (48 + d)) else ascii_of_N (Z.to_N (55 + d)).

Fixpoint hex_digits_fuel (fuel : nat) (n : Z) (acc : string) : string :=
  match fuel with
  | O => acc
  | S fuel' =>
      let acc' := String (hex_digit (n mod 16)) acc in
      if (n / 16 =? 0)%Z then acc' else hex_digits_fuel fuel' (n / 16) acc'
  end.

Definition hex_digits (n : Z) : string :=
  hex_digits_fuel (S (Z.to_nat (Z.log2 (Z.abs n)))) (Z.abs n) "".

(** [f"{n:02X}"]. *)
Definition fmt_02X (n : Z) : string :=
  if (n <? 0)%Z then "-" +:+ zfill 1 (hex_digits n) else zfill 2 (hex_digits n).

(** [f"{x:.0f}"]: rounded to the nearest integer, ties to even. *)
Definition fmt_0f (x : Q) : string := fmt_d (round x).

End Py.

(** ** DanmakuLayout: lane allocation *)

Module Layout.

(** The scan of [_acquire_track]: the first index, counted from
    [index], whose free time is at most [start]. *)
Fixpoint first_free (tracks : list Q) (start : Q) (index : nat) : option nat :=
  match tracks with
  | [] => None
  | free_time :: rest =>
      if Qle_bool free_time start then Some index
      else first_free rest start (S index)
  end.

(** [min(range(len(tracks)), key=lambda i: tracks[i])]: [min] keeps the
    first element and replaces it only by a strictly smaller one. *)
Fixpoint argmin_from (best : nat) (best_key : Q) (index : nat) (rest : list Q) : nat :=
  match rest with
  | [] => best
  | k :: rest' =>
      if Qle_bool best_key k then argmin_from best best_key (S index) rest'
      else argmin_from index k (S index) rest'
  end.

Definition min_index (tracks : list Q) : result nat :=
  match tracks with
  | [] => Raise ValueError
  | k :: rest => Ok (argmin_from 0 k 1 rest)
  end.

(** [_acquire_track]: the index granted and the lane list after the
    assignment [tracks[index] = start + duration]. *)
Definition _acquire_track (tracks : list Q) (start duration : Q) : result (nat * list Q) :=
  match first_free tracks start 0 with
  | Some index => Ok (index, <[index := (start + duration)%Q]> tracks)
  | None =>
      match min_index tracks with
      | Ok index => Ok (index, <[index := (start + duration)%Q]> tracks)
      | Raise e => Raise e
      end
  end.

(** *** Histories of grants

    A request sequence is served from left to right on one lane list.
    Each grant is recorded with the interval it was given and with the
    branch that served it: [g_forced] says that no lane was free at the
    requested start, so that the lane of least free time was overwritten. *)
Record grant : Type := Grant {
  g_lane : nat;
  g_start : Q;
  g_end : Q;
  g_forced : bool
}.

Definition all_busy (tracks : list Q) (start : Q) : bool :=
  match first_free tracks start 0 with
  | Some _ => false
  | None => true
  end.

Fixpoint serve (tracks : list Q) (requests : list (Q * Q)) : result (list grant * list Q) :=
  match requests with
  | [] => Ok ([], tracks)
  | (start, duration) :: rest =>
      match _acquire_track tracks start duration with
      | Raise e => Raise e
      | Ok (index, tracks') =>
          match serve tracks' rest with
          | Raise e => Raise e
          | Ok (h, final) =>
              Ok (Grant index start (start + duration)%Q (all_busy tracks start) :: h, final)
          end
      end
  end.

Definition overlap (a b : grant) : Prop :=
  (g_start a < g_end b)%Q ∧ (g_start b < g_end a)%Q.

(** Two grants of one lane overlap only if, after the earlier one, a
    grant of that lane (possibly the later one itself) came from the
    overwrite branch. *)
Definition overlaps_only_forced (h : list grant) : Prop :=
  ∀ i j a b, (i < j)%nat → h !! i = Some a → h !! j = Some b →
    g_lane a = g_lane b → overlap a b →
    ∃ k c, (i < k ≤ j)%nat ∧ h !! k = Some c ∧
           g_lane c = g_lane a ∧ g_forced c = true.

(** The invariant as the specification words it: of two grants of one
    lane that overlap, the later one came from the overwrite branch. *)
Definition overlap_forces_later (h : list grant) : Prop :=
  ∀ i j a b, (i < j)%nat → h !! i = Some a → h !! j = Some b →
    g_lane a = g_lane b → overlap a b → g_forced b = true.

(** The choice made by one grant, as the specification words it. *)
Definition first_fit (tracks : list Q) (start : Q) (index : nat) : Prop :=
  (∃ f, tracks !! index = Some f ∧ (f <= start)%Q) ∧
  ∀ j f, (j < index)%nat → tracks !! j = Some f → (start < f)%Q.

Definition least_free (tracks : list Q) (start : Q) (index : nat) : Prop :=
  (∀ j f, tracks !! j = Some f → (start < f)%Q) ∧
  ∃ m, tracks !! index = Some m ∧
       (∀ j f, tracks !! j = Some f → (m <= f)%Q) ∧
       (∀ j f, (j < index)%nat → tracks !! j = Some f → (m < f)%Q).

(** *** The layout object and the rendering of one comment *)

Record layout : Type := Layout {
  scroll_duration : Z;
  max_comments : Z;
  play_res_x : Z;
  play_res_y : Z;
  margin : Z;
  font_size : Z;
  line_height : Z;
  scroll_tracks : list Q;
  top_tracks : list Q;
  bottom_tracks : list Q
}.

(** [DanmakuLayout.__init__]. *)
Definition __init__ (scroll_duration max_comments : Z) : layout :=
  {| scroll_duration := Py.max_int scroll_duration 4;
     max_comments := max_comments;
     play_res_x := 1920;
     play_res_y := 1080;
     margin := 20;
     font_size := 48;
     line_height := Py.int_of_float (inject_Z 48 * (12 # 10));
     scroll_tracks := replicate 12 0%Q;
     top_tracks := replicate 5 0%Q;
     bottom_tracks := replicate 5 0%Q |}.

Definition set_scroll_tracks (L : layout) (tracks : list Q) : layout :=
  {| scroll_duration := scroll_duration L; max_comments := max_comments L;
     play_res_x := play_res_x L; play_res_y := play_res_y L; margin := margin L;
     font_size := font_size L; line_height := line_height L;
     scroll_tracks := tracks; top_tracks := top_tracks L;
     bottom_tracks := bottom_tracks L |}.

Definition set_top_tracks (L : layout) (tracks : list Q) : layout :=
  {| scroll_duration := scroll_duration L; max_comments := max_comments L;
     play_res_x := play_res_x L; play_res_y := play_res_y L; margin := margin L;
     font_size := font_size L; line_height := line_height L;
     scroll_tracks := scroll_tracks L; top_tracks := tracks;
     bottom_tracks := bottom_tracks L |}.

Definition set_bottom_tracks (L : layout) (tracks : list Q) : layout :=
  {| scroll_duration := scroll_duration L; max_comments := max_comments L;
     play_res_x := play_res_x L; play_res_y := play_res_y L; margin := margin L;
     font_size := font_size L; line_height := line_height L;
     scroll_tracks := scroll_tracks L; top_tracks := top_tracks L;
     bottom_tracks := tracks |}.

(** [_format_time]. *)
Definition _format_time (seconds : Q) : string :=
  let seconds := if Py.float_lt seconds 0 then 0%Q else seconds in
  let msec := Py.round ((seconds - inject_Z (Py.int_of_float seconds)) * 100) in
  let total_seconds := Py.int_of_float seconds in
  let hours := (total_seconds / 3600)%Z in
  let minutes := ((total_seconds mod 3600) / 60)%Z in
  let secs := (total_seconds mod 60)%Z in
  Py.fmt_d hours +:+ ":" +:+ Py.fmt_02d minutes +:+ ":" +:+ Py.fmt_02d secs
    +:+ "." +:+ Py.fmt_02d msec.

(** [_ass_color]. *)
Definition _ass_color (rgb : Z) : string :=
  let r := Z.land (Z.shiftr rgb 16) 255 in
  let g := Z.land (Z.shiftr rgb 8) 255 in
  let b := Z.land rgb 255 in
  "&H00" +:+ Py.fmt_02X b +:+ Py.fmt_02X g +:+ Py.fmt_02X r +:+ "&".

Definition backslash : ascii := ascii_of_nat 92.
Definition bs (s : string) : string := String backslash s.

(** [_escape]. *)
Definition _escape (text : string) : string :=
  let escaped := Py.replace backslash (bs (bs "")) text in
  let escaped := Py.replace "}"%char (bs "}") (Py.replace "{"%char (bs "{") escaped) in
  let escaped := Py.replace (ascii_of_nat 13) " " escaped in
  let escaped := Py.replace (ascii_of_nat 10) (bs "N") escaped in
  escaped.

Definition dialogue (start_time end_time overrides text : string) : string :=
  "Dialogue: 0," +:+ start_time +:+ "," +:+ end_time +:+ ",Danmaku,,0,0,0,,"
    +:+ overrides +:+ _escape text.

(** [_scroll_event]: the line and the object after the lane was taken. *)
Definition _scroll_event (L : layout) (start : Q) (text color : string)
  : result (string * layout) :=
  match _acquire_track (scroll_tracks L) start (inject_Z (scroll_duration L)) with
  | Raise e => Raise e
  | Ok (row, tracks') =>
      let L' := set_scroll_tracks L tracks' in
      let y := (margin L + Z.of_nat row * line_height L)%Z in
      let text_length := Py.max_int (Z.of_nat (String.length text)) 1 in
      let width := (inject_Z text_length * inject_Z (font_size L) * (6 # 10))%Q in
      let start_x := (play_res_x L + 50)%Z in
      let end_x := (- width - 50)%Q in
      let start_time := _format_time start in
      let end_time := _format_time (start + inject_Z (scroll_duration L)) in
      let overrides :=
        "{" +:+ bs "move(" +:+ Py.fmt_0f (inject_Z start_x) +:+ "," +:+ Py.fmt_d y
          +:+ "," +:+ Py.fmt_0f end_x +:+ "," +:+ Py.fmt_d y +:+ ")"
          +:+ bs "c" +:+ color +:+ "}" in
      Ok (dialogue start_time end_time overrides text, L')
  end.

Inductive alignment : Type := Top | Bottom.

(** [_static_event]: [tracks] is the pool handed in by the caller, which
    is updated in place; the updated pool is returned with the line. *)
Definition _static_event (L : layout) (tracks : list Q) (align : alignment)
    (start duration : Q) (text color : string) : result (string * list Q) :=
  match _acquire_track tracks start duration with
  | Raise e => Raise e
  | Ok (row, tracks') =>
      let y :=
        match align with
        | Top => (margin L + Z.of_nat row * line_height L)%Z
        | Bottom => (play_res_y L - margin L - Z.of_nat row * line_height L)%Z
        end in
      let tag := match align with Top => bs "an8" | Bottom => bs "an2" end in
      let start_time := _format_time start in
      let end_time := _format_time (start + duration) in
      let overrides :=
        "{" +:+ tag +:+ bs "pos(" +:+ Py.fmt_0f (inject_Z (play_res_x L) / 2)
          +:+ "," +:+ Py.fmt_0f (inject_Z y) +:+ ")" +:+ bs "c" +:+ color +:+ "}" in
      Ok (dialogue start_time end_time overrides text, tracks')
  end.

Definition nl : string := String (ascii_of_nat 10) EmptyString.

Definition header : string :=
  "[Script Info]" +:+ nl +:+
  "; Script generated by Kodi Dandanplay service" +:+ nl +:+
  "ScriptType: v4.00+" +:+ nl +:+
  "PlayResX: 1920" +:+ nl +:+
  "PlayResY: 1080" +:+ nl +:+
  "Collisions: Normal" +:+ nl +:+
  "WrapStyle: 2" +:+ nl +:+
  "ScaledBorderAndShadow: yes" +:+ nl +:+
  nl +:+
  "[V4+ Styles]" +:+ nl +:+
  "Format: Name,Fontname,Fontsize,PrimaryColour,SecondaryColour,OutlineColour,BackColour,Bold,Italic,Underline,StrikeOut,ScaleX,ScaleY,Spacing,Angle,BorderStyle,Outline,Shadow,Alignment,MarginL,MarginR,MarginV,Encoding" +:+ nl +:+
  "Style: Danmaku,Arial,48,&H00FFFFFF,&H00FFFFFF,&H64000000,&H32000000,0,0,0,0,100,100,0,0,1,2,0,7,20,20,20,1" +:+ nl +:+
  nl +:+
  "[Events]" +:+ nl +:+
  "Format: Layer,Start,End,Style,Name,MarginL,MarginR,MarginV,Effect,Text" +:+ nl.

Section Builtins.

(** The builtins of the interpreter that [build] calls on the fields of
    a comment: [float()] and [int()] on a string ([None] for
    [ValueError]), and [str()] on a value that is not a string.  A text
    that [float()] reads as nan or as an infinity (nan, inf, 1e400) has
    no image under [py_float]: with such a time the code raises from
    [int()] in [_format_time], outside the [try] of [build]. *)
Variable py_float : string → option Q.
Variable py_int : string → option Z.
Variable py_repr : pyval → string.

(** [str(v)]. *)
Definition py_str (v : pyval) : string := Py.str py_repr v.

(** The [try] block of [build]: the three fields of [p], with the shift
    added to the first; [None] when [ValueError] or [IndexError] is
    caught. *)
Definition parse_payload (payload : pyval) (shift : Q) : option (Q * Z * Z) :=
  let parts := Py.split ","%char (py_str payload) in
  match parts !! 0%nat with
  | None => None
  | Some p0 =>
      match py_float p0 with
      | None => None
      | Some t =>
          let timestamp := (t + shift)%Q in
          match parts !! 1%nat with
          | None => None
          | Some p1 =>
              match py_int p1 with
              | None => None
              | Some mode =>
                  match parts !! 2%nat with
                  | None => None
                  | Some p2 =>
                      match py_int p2 with
                      | None => None
                      | Some color => Some (timestamp, mode, color)
                      end
                  end
              end
          end
      end
  end.

(** [if timestamp < 0: timestamp = 0]. *)
Definition clamp (timestamp : Q) : Q :=
  if Py.float_lt timestamp 0 then 0%Q else timestamp.

(** [text.strip()]: only a string has the method. *)
Definition strip_text (text : pyval) : result string :=
  match text with
  | VStr s => Ok (Py.strip s)
  | _ => Raise AttributeError
  end.

(** The routing of [build] on the mode. *)
Definition emit (L : layout) (mode : Z) (timestamp : Q) (clean_text color_code : string)
  : result (string * layout) :=
  if (mode =? 1)%Z then _scroll_event L timestamp clean_text color_code
  else if (mode =? 4)%Z then
    match _static_event L (bottom_tracks L) Bottom timestamp 4 clean_text color_code with
    | Raise e => Raise e
    | Ok (event, tracks') => Ok (event, set_bottom_tracks L tracks')
    end
  else if (mode =? 5)%Z then
    match _static_event L (top_tracks L) Top timestamp 4 clean_text color_code with
    | Raise e => Raise e
    | Ok (event, tracks') => Ok (event, set_top_tracks L tracks')
    end
  else _scroll_event L timestamp clean_text color_code.

(** One pass of the body of the loop of [build], after the test of the
    cap: [Ok None] for [continue], [Ok (Some (event, L'))] when a line
    is appended. *)
Definition render (L : layout) (comment : gmap string pyval) (shift : Q)
  : result (option (string * layout)) :=
  let payload := Py.get comment "p" in
  let text := Py.get comment "m" in
  if negb (Py.truthy payload) || negb (Py.truthy text) then Ok None
  else
    match parse_payload payload shift with
    | None => Ok None
    | Some (timestamp, mode, color) =>
        let timestamp := clamp timestamp in
        let color_code := _ass_color color in
        match strip_text text with
        | Raise e => Raise e
        | Ok clean_text =>
            if String.eqb clean_text "" then Ok None
            else
              match emit L mode timestamp clean_text color_code with
              | Raise e => Raise e
              | Ok (event, L') => Ok (Some (event, L'))
              end
        end
    end.

(** [if self.max_comments and count >= self.max_comments: break]. *)
Definition cap_reached (L : layout) (count : Z) : bool :=
  negb (max_comments L =? 0)%Z && (max_comments L <=? count)%Z.

(** The loop of [build], from the state reached so far. *)
Fixpoint build_loop (L : layout) (events : list string) (count : Z)
    (comments : list (gmap string pyval)) (shift : Q)
  : result (list string) * layout :=
  match comments with
  | [] => (Ok events, L)
  | comment :: rest =>
      if cap_reached L count then (Ok events, L)
      else
        match render L comment shift with
        | Raise e => (Raise e, L)
        | Ok None => build_loop L events count rest shift
        | Ok (Some (event, L')) =>
            build_loop L' (events ++ [event]) (count + 1)%Z rest shift
        end
  end.

(** [build]: the document, or the exception that left the loop, and the
    object after the call. *)
Definition build (L : layout) (comments : list (gmap string pyval)) (shift : Q)
  : result string * layout :=
  match build_loop L [] 0%Z comments shift with
  | (Ok events, L') => (Ok (header +:+ Py.join nl events), L')
  | (Raise e, L') => (Raise e, L')
  end.

(** *** Notions used to state the properties of [build] *)

(** The attributes of the object other than the three lane pools. *)
Definition same_config (L L' : layout) : Prop :=
  scroll_duration L' = scroll_duration L ∧ max_comments L' = max_comments L ∧
  play_res_x L' = play_res_x L ∧ play_res_y L' = play_res_y L ∧
  margin L' = margin L ∧ font_size L' = font_size L ∧
  line_height L' = line_height L.

(** The object [L'] with its lane pools put back to those of [L]. *)
Definition restore_pools (L' L : layout) : layout :=
  set_scroll_tracks
    (set_top_tracks (set_bottom_tracks L' (bottom_tracks L)) (top_tracks L))
    (scroll_tracks L).

(** The tests of the loop body that lead to [continue]. *)
Definition skipped (comment : gmap string pyval) (shift : Q) : bool :=
  let payload := Py.get comment "p" in
  let text := Py.get comment "m" in
  negb (Py.truthy payload) || negb (Py.truthy text) ||
  match parse_payload payload shift with
  | None => true
  | Some _ =>
      match text with
      | VStr s => String.eqb (Py.strip s) ""
      | _ => false
      end
  end.

(** The number of comments of the list that pass those tests. *)
Definition renderable (comments : list (gmap string pyval)) (shift : Q) : Z :=
  Z.of_nat (length (List.filter (λ c, negb (skipped c shift)) comments)).

(** A malformed entry in the words of the specification: a [p] field
    whose first three parts are not a number, an integer and an
    integer, or an [m] field that is absent or the empty string. *)
Definition numeric_p (comment : gmap string pyval) : bool :=
  match Py.split ","%char (py_str (Py.get comment "p")) with
  | p0 :: p1 :: p2 :: _ =>
      match py_float p0, py_int p1, py_int p2 with
      | Some _, Some _, Some _ => true
      | _, _, _ => false
      end
  | _ => false
  end.

Definition empty_m (comment : gmap string pyval) : bool :=
  match Py.get comment "m" with
  | VNone => true
  | VStr s => String.eqb s ""
  | _ => false
  end.

Definition malformed (comment : gmap string pyval) : bool :=
  negb (numeric_p comment) || empty_m comment.

(** The [m] field of the comment is a string, or falsy (absent, [None],
    zero, empty). *)
Definition text_is_string (comment : gmap string pyval) : bool :=
  match Py.get comment "m" with
  | VStr _ => true
  | v => negb (Py.truthy v)
  end.

(** The three lane pools have at least one lane each. *)
Definition has_lanes (L : layout) : Prop :=
  scroll_tracks L ≠ [] ∧ top_tracks L ≠ [] ∧ bottom_tracks L ≠ [].

(** The three lane pools have the same numbers of lanes in [L'] as
    in [L]. *)
Definition same_lanes (L L' : layout) : Prop :=
  length (scroll_tracks L') = length (scroll_tracks L) ∧
  length (top_tracks L') = length (top_tracks L) ∧
  length (bottom_tracks L') = length (bottom_tracks L).

(** The character [c] occurs in the text [s]. *)
Definition occurs (c : ascii) (s : string) : Prop := In c (list_ascii_of_string s).

(** The characters that [_escape] rewrites. *)
Definition special (c : ascii) : bool :=
  Ascii.eqb c backslash || Ascii.eqb c "{"%char || Ascii.eqb c "}"%char ||
  Ascii.eqb c (ascii_of_nat 13) || Ascii.eqb c (ascii_of_nat 10).

End Builtins.

(** *** The model on concrete inputs

    The builtins are instantiated with the readers of decimal literals;
    [str()] of a value that is not a string is not reached on these
    inputs. *)

Definition no_repr (v : pyval) : string := "".

Definition comment (p m : string) : gmap string pyval :=
  <["p" := VStr p]> (<["m" := VStr m]> ∅).

Definition run_build (L : layout) (comments : list (gmap string pyval)) (shift : Q)
  : result string * layout :=
  build Py.dec_float Py.dec_int no_repr L comments shift.

Definition five_comments : list (gmap string pyval) :=
  [comment "abc,1,255" "dropped"; comment "1.0,1,255" "one"; comment "2.0,4,255" "   ";
   comment "3.0,5,255" "two"; comment "4.0,1,255" "three"].

(** Twelve scrolling comments at 10 s, one per lane, then one at 5 s and
    one at 11 s: [build] takes the comments in the order of the list. *)
Definition out_of_order_comments : list (gmap string pyval) :=
  replicate 12 (comment "10.0,1,16777215" "a") ++
  [comment "5.0,1,16777215" "b"; comment "11.0,1,16777215" "c"].

Definition run_build_loop (L : layout) (comments : list (gmap string pyval)) (shift : Q)
  : result (list string) * layout :=
  build_loop Py.dec_float Py.dec_int no_repr L [] 0%Z comments shift.

End Layout.

(** ** DandanplayClient: token cache, login and requests *)

Module Client.

(** What [urllib.request.Request] is built from. *)
Record request : Type := Request {
  url : string;
  body : option string;
  headers : gmap string string
}.

(** The attributes of the client object. *)
Record client : Type := Client {
  app_id : string;
  app_secret : string;
  username : string;
  password : string;
  merge_related : bool;
  _token_cache : option (gmap string pyval)
}.

(** What the client acts on outside itself: the file token.json (its
    text when it exists, and whether it can be written), the requests
    opened so far, oldest first, and the number of readings of the
    clock. *)
Record world : Type := World {
  token_file : option string;
  writable : bool;
  sent : list request;
  ticks : nat
}.

Definition state : Type := client * world.

(** A method: from a state, a value or an exception, and the state
    after it. *)
Definition M (A : Type) : Type := state → result A * state.

Definition ret {A : Type} (a : A) : M A := λ st, (Ok a, st).

Definition raise {A : Type} (e : exn) : M A := λ st, (Raise e, st).

Definition bind {A B : Type} (m : M A) (k : A → M B) : M B :=
  λ st, match m st with
        | (Ok a, st') => k a st'
        | (Raise e, st') => (Raise e, st')
        end.

(** [try: m] followed by [ok] when nothing is raised, [except: handler]. *)
Definition try_except {A B : Type} (m : M A) (ok : A → M B) (handler : exn → M B) : M B :=
  λ st, match m st with
        | (Ok a, st') => ok a st'
        | (Raise e, st') => handler e st'
        end.

Notation "'do' x <- m ; k" := (bind m (λ x, k))
  (at level 10, x name, m at level 100, k at level 200).

Definition get_client : M client := λ st, (Ok st.1, st).

Definition with_cache (cache : option (gmap string pyval)) (c : client) : client :=
  {| app_id := app_id c; app_secret := app_secret c; username := username c;
     password := password c; merge_related := merge_related c;
     _token_cache := cache |}.

(** [self._token_cache = cache]. *)
Definition set_token_cache (cache : option (gmap string pyval)) : M unit :=
  λ '(c, w), (Ok tt, (with_cache cache c, w)).

Definition tick (w : world) : world :=
  {| token_file := token_file w; writable := writable w; sent := sent w;
     ticks := S (ticks w) |}.

Definition log_request (r : request) (w : world) : world :=
  {| token_file := token_file w; writable := writable w; sent := sent w ++ [r];
     ticks := ticks w |}.

Definition API_BASE : string := "https://api.dandanplay.net".
Definition USER_AGENT : string := "Kodi-Dandanplay/1.0".

Definition nonempty (s : string) : bool := negb (String.eqb s "").

(** [d.setdefault(key, value)], for its effect on [d]. *)
Definition setdefault (d : gmap string pyval) (key : string) (value : pyval)
  : gmap string pyval :=
  match d !! key with
  | Some _ => d
  | None => <[key := value]> d
  end.

(** [v[0]]. *)
Definition index0 (v : pyval) : result pyval :=
  match v with
  | VList (x :: _) => Ok x
  | VList [] => Raise IndexError
  | VStr (String a _) => Ok (VStr (String a EmptyString))
  | VStr EmptyString => Raise IndexError
  | VDict _ => Raise KeyError
  | _ => Raise TypeError
  end.

(** The tail of [match], after the response was received. *)
Definition select_match (response : gmap string pyval) : result pyval :=
  let matches := Py.or_else (Py.get response "matches") (VList []) in
  if Py.truthy (Py.get response "isMatched") && Py.truthy matches then index0 matches
  else if Py.truthy matches then index0 matches
  else Ok VNone.

Section Environment.

(** The interpreter and the libraries: [json.loads] on a text ([None]
    when it raises; a decoded document is a dict, as the annotations of
    the client say), [json.dumps], the hexadecimal MD5 digest, [str()]
    on a value that is not a string, [datetime.fromisoformat] followed
    by [timestamp()] ([None] for [ValueError]), [urljoin] and
    [urlencode]. *)
Variable json_loads : string → option (gmap string pyval).
Variable json_dumps : gmap string pyval → string.
Variable md5_hexdigest : string → string.
Variable py_repr : pyval → string.
Variable iso_timestamp : string → option Q.
Variable urljoin : string → string → string.
Variable urlencode : gmap string pyval → string.

(** The network and the clock: what [urlopen], reading and decoding the
    reply give for a request, knowing the requests opened before it (the
    text of the reply, or the exception), and the successive readings of
    [time.time()]. *)
Variable server : list request → request → result string.
Variable clock : nat → Q.

Definition py_str (v : pyval) : string := Py.str py_repr v.

(** [time.time()]. *)
Definition time_time : M Q :=
  λ '(c, w), (Ok (clock (ticks w)), (c, tick w)).

(** [urlopen(request)] with the reading and decoding of the reply. *)
Definition urlopen (r : request) : M string :=
  λ '(c, w), (server (sent w) r, (c, log_request r w)).

Definition write_token_file (text : string) : M unit :=
  λ '(c, w),
    if writable w then
      (Ok tt, (c, {| token_file := Some text; writable := writable w;
                     sent := sent w; ticks := ticks w |}))
    else (Raise OSError, (c, w)).

(** [_load_token]. *)
Definition _load_token : M (option (gmap string pyval)) :=
  λ '(c, w),
    match _token_cache c with
    | Some token => (Ok (Some token), (c, w))
    | None =>
        match token_file w with
        | None => (Ok None, (c, w))
        | Some data =>
            (do _ <- set_token_cache (json_loads data); ret (json_loads data)) (c, w)
        end
    end.

(** [_save_token]: a failure of the write is logged only. *)
Definition _save_token (payload : gmap string pyval) : M unit :=
  do _ <- set_token_cache (Some payload);
  try_except (write_token_file (json_dumps payload)) ret (λ _, ret tt).

(** The expiry read by [_token_valid]: the first truthy one of three
    keys. *)
Definition expires_of (token : gmap string pyval) : pyval :=
  Py.or_else (Py.or_else (Py.get token "expireTime") (Py.get token "expiresAt"))
             (Py.get token "expire_at").

(** The end of [_token_valid], when no expiry was usable. *)
Definition issued_fallback (token : gmap string pyval) : M bool :=
  let issued := Py.or_else (Py.get token "loginTime") (Py.get token "issuedAt") in
  match Py.as_number issued with
  | Some i => do now <- time_time; ret (Py.float_lt now (i + 7 * 86400))
  | None => ret (Py.truthy (Py.get token "token"))
  end.

(** [_token_valid]. *)
Definition _token_valid (token : gmap string pyval) : M bool :=
  if negb (Py.truthy (VDict token)) then ret false
  else
    let expires := expires_of token in
    match Py.as_number expires with
    | Some e => do now <- time_time; ret (Py.float_lt now (e - 60))
    | None =>
        match expires with
        | VStr s =>
            match iso_timestamp (Py.replace "Z"%char "+00:00" s) with
            | Some ts => do now <- time_time; ret (Py.float_lt (now + 60) ts)
            | None => issued_fallback token
            end
        | _ => issued_fallback token
        end
    end.

(** The end of [_request]: an empty reply is the empty dict. *)
Definition decode_payload (payload : string) : result (gmap string pyval) :=
  if String.eqb payload "" then Ok ∅
  else match json_loads payload with
       | Some d => Ok d
       | None => Raise ValueError
       end.

Definition decode (payload : string) : M (gmap string pyval) :=
  λ st, (decode_payload payload, st).

Definition is_not_none (v : pyval) : option pyval :=
  match v with
  | VNone => None
  | _ => Some v
  end.

Definition with_authorization (token : pyval) (h : gmap string string)
  : gmap string string :=
  <["Authorization" := "Bearer " +:+ py_str token]> h.

(** The request opened again after a 401: the same URL and body, the
    header set from the new token or removed. *)
Definition second_request (new_token : pyval) (r : request) : request :=
  Request (url r) (body r)
    (if Py.truthy new_token then with_authorization new_token (headers r)
     else delete "Authorization" (headers r)).

(** The handler of [HTTPError] in [_request]: after a 401 on an
    authenticated request, the cache is dropped, a token is asked for,
    and the request is opened once more. *)
Definition retry_request (ensure : M pyval) (r : request) : M (gmap string pyval) :=
  do _ <- set_token_cache None;
  do new_token <- ensure;
  do payload <- urlopen (second_request new_token r);
  decode payload.

(** The request built by [_request] before the first [urlopen]. *)
Definition first_request (path : string) (data params : option (gmap string pyval))
    (authenticated : bool) (token : pyval) : request :=
  let url := urljoin API_BASE path in
  let url :=
    match params with
    | Some p =>
        if Py.truthy (VDict p) then url +:+ "?" +:+ urlencode (omap is_not_none p)
        else url
    | None => url
    end in
  let headers : gmap string string :=
    <["User-Agent" := USER_AGENT]> (<["Content-Type" := "application/json"]> ∅) in
  let headers :=
    if authenticated && Py.truthy token then with_authorization token headers
    else headers in
  Request url (json_dumps <$> data) headers.

(** [_request], with the method [ensure_token] it calls as a parameter:
    [ensure_token] itself calls [_request] with [authenticated=False],
    where [ensure] is not used. *)
Definition _request_with (ensure : M pyval) (path : string)
    (data params : option (gmap string pyval)) (authenticated retry : bool)
  : M (gmap string pyval) :=
  do token <- (if authenticated then ensure else ret VNone);
  let r := first_request path data params authenticated token in
  try_except (urlopen r) decode
    (λ exc,
       match exc with
       | HTTPError code =>
           if (code =? 401)%Z && authenticated && retry then retry_request ensure r
           else raise exc
       | _ => raise exc
       end).

Definition credentials_complete (c : client) : bool :=
  nonempty (username c) && nonempty (password c) &&
  nonempty (app_id c) && nonempty (app_secret c).

Definition login_payload (c : client) (timestamp : string) : gmap string pyval :=
  <["userName" := VStr (username c)]>
    (<["password" := VStr (password c)]>
       (<["appId" := VStr (app_id c)]>
          (<["hash" := VStr (md5_hexdigest
                               (app_id c +:+ password c +:+ timestamp
                                  +:+ username c +:+ app_secret c))]>
             (<["time" := VStr timestamp]> ∅)))).

(** The request made inside the [try] of [ensure_token]. *)
Definition login_request (c : client) (timestamp : string) : M (gmap string pyval) :=
  _request_with (ret VNone) "/api/v2/login" (Some (login_payload c timestamp)) None
    false true.

(** The [try] of [ensure_token]: [Some v] when [v] is returned from
    inside it, [None] when control reaches the statement after it. *)
Definition try_login (c : client) (timestamp : string) : M (option pyval) :=
  try_except (login_request c timestamp)
    (λ response,
       let token := Py.get response "token" in
       if Py.truthy token then
         do _ <- _save_token (setdefault response "expireTime" (Py.get response "expireAt"));
         ret (Some (VStr (py_str token)))
       else ret None)
    (λ _, ret None).

(** [cached.get("token") if cached else None]. *)
Definition stale_token (cached : option (gmap string pyval)) : pyval :=
  match cached with
  | Some token => if Py.truthy (VDict token) then Py.get token "token" else VNone
  | None => VNone
  end.

(** [cached and self._token_valid(cached)], as a truth value. *)
Definition cached_valid (cached : option (gmap string pyval)) : M bool :=
  match cached with
  | Some token => if Py.truthy (VDict token) then _token_valid token else ret false
  | None => ret false
  end.

(** [ensure_token] after the test of the cached token failed. *)
Definition login (cached : option (gmap string pyval)) : M pyval :=
  do c <- get_client;
  if negb (credentials_complete c) then ret VNone
  else
    do now <- time_time;
    let timestamp := Py.fmt_d (Py.int_of_float now) in
    do returned <- try_login c timestamp;
    match returned with
    | Some v => ret v
    | None => ret (stale_token cached)
    end.

(** [ensure_token]. *)
Definition ensure_token : M pyval :=
  do cached <- _load_token;
  do valid <- cached_valid cached;
  match cached, valid with
  | Some token, true => ret (VStr (py_str (Py.get token "token")))
  | _, _ => login cached
  end.

(** [_request]. *)
Definition _request (path : string) (data params : option (gmap string pyval))
    (authenticated retry : bool) : M (gmap string pyval) :=
  _request_with ensure_token path data params authenticated retry.

Definition match_payload (c : client) (file_name : string) (file_size : option Z)
    (file_hash : option string) (duration : option Z) : gmap string pyval :=
  let payload : gmap string pyval :=
    <["fileName" := VStr file_name]> (<["matchMode" := VStr "hashAndFileName"]> ∅) in
  let payload := if nonempty (app_id c) then <["appId" := VStr (app_id c)]> payload else payload in
  let payload :=
    match file_size with
    | Some n => <["fileSize" := VInt n]> payload
    | None => payload
    end in
  let payload :=
    match file_hash with
    | Some h => if nonempty h then <["fileHash" := VStr h]> payload else payload
    | None => payload
    end in
  match duration with
  | Some d => if (d =? 0)%Z then payload else <["videoDuration" := VInt d]> payload
  | None => payload
  end.

(** [match]. *)
Definition match_ (file_name : string) (file_size : option Z)
    (file_hash : option string) (duration : option Z) : M pyval :=
  do c <- get_client;
  try_except
    (_request "/api/v2/match"
       (Some (match_payload c file_name file_size file_hash duration)) None
       (nonempty (username c)) true)
    (λ response, λ st, (select_match response, st))
    (λ _, ret VNone).

(** [get_comments]: the handler of its [try] logs and raises again. *)
Definition get_comments (episode_id : Z) (since : option Z)
  : M (pyval * gmap string pyval) :=
  do c <- get_client;
  let params : gmap string pyval :=
    <["withRelated" := VStr (if merge_related c then "true" else "false")]> ∅ in
  let params :=
    match since with
    | Some n => <["from" := VInt n]> params
    | None => params
    end in
  do response <- _request ("/api/v2/comment/" +:+ Py.fmt_d episode_id) None (Some params)
                   false true;
  ret (Py.or_else (Py.get response "comments") (VList []), response).

(** *** Notions used to state the properties of the client *)

(** What a request is answered with: the decoded reply, or the
    exception of [urlopen] or of the decoding. *)
Definition answer (opened : list request) (r : request) : result (gmap string pyval) :=
  match server opened r with
  | Ok payload => decode_payload payload
  | Raise e => Raise e
  end.

(** The text of token.json is as it was, or is the dump of a login
    response that carries a token. *)
Definition file_kept_or_login (w w' : world) : Prop :=
  token_file w' = token_file w ∨
  ∃ payload, token_file w' = Some (json_dumps payload) ∧
             Py.truthy (Py.get payload "token") = true.

Definition is_login (q : request) : Prop :=
  url q = urljoin API_BASE "/api/v2/login" ∧ headers q !! "Authorization" = None.

(** The reading of the clock a method makes first from a state. *)
Definition now (st : state) : Q := clock (ticks st.2).

End Environment.

(** *** The model on a concrete environment

    The clock stands at 1000.  The server answers 401 to a request that
    carries the token [old], the text LOGIN to a login request, and the
    text DATA otherwise; [json.loads] reads LOGIN as a dict with the
    token [fresh] and every other text as a response that is not
    matched and lists two candidates.  The digest, [json.dumps], [str()]
    and [urlencode] are stand-ins on which the outcomes below do not
    depend. *)

Definition login_url : string := API_BASE +:+ "/api/v2/login".

Definition the_server (opened : list request) (r : request) : result string :=
  if String.eqb (url r) login_url then Ok "LOGIN"
  else match headers r !! "Authorization" with
       | Some h => if String.eqb h "Bearer old" then Raise (HTTPError 401) else Ok "DATA"
       | None => Ok "DATA"
       end.

(** A server that is out of reach. *)
Definition no_server (opened : list request) (r : request) : result string :=
  Raise URLError.

Definition the_json_loads (text : string) : option (gmap string pyval) :=
  if String.eqb text "LOGIN" then Some (<["token" := VStr "fresh"]> ∅)
  else Some (<["isMatched" := VBool false]>
               (<["matches" := VList [VInt 123; VInt 456]]> ∅)).

Definition the_clock (n : nat) : Q := 1000.

Definition the_json_dumps (d : gmap string pyval) : string := "{}".
Definition the_md5 (text : string) : string := text.
Definition the_repr (v : pyval) : string := "".
Definition the_iso (text : string) : option Q := None.
Definition the_urljoin (base path : string) : string := base +:+ path.
Definition the_urlencode (d : gmap string pyval) : string := "".

Definition run_ensure_token (server : list request → request → result string) : M pyval :=
  ensure_token the_json_loads the_json_dumps the_md5 the_repr the_iso the_urljoin
    the_urlencode server the_clock.

Definition run_request (server : list request → request → result string)
    (path : string) (data params : option (gmap string pyval))
    (authenticated retry : bool) : M (gmap string pyval) :=
  _request the_json_loads the_json_dumps the_md5 the_repr the_iso the_urljoin
    the_urlencode server the_clock path data params authenticated retry.

Definition run_match (server : list request → request → result string)
    (file_name : string) (file_size : option Z) (file_hash : option string)
    (duration : option Z) : M pyval :=
  match_ the_json_loads the_json_dumps the_md5 the_repr the_iso the_urljoin
    the_urlencode server the_clock file_name file_size file_hash duration.

Definition old_token : gmap string pyval := <["token" := VStr "old"]> ∅.

Definition expired_token : gmap string pyval :=
  <["token" := VStr "old"]> (<["expireTime" := VInt 1]> ∅).

Definition empty_world : world :=
  {| token_file := None; writable := true; sent := []; ticks := 0 |}.

Definition with_account (cache : option (gmap string pyval)) : state :=
  ({| app_id := "app"; app_secret := "secret"; username := "user"; password := "pw";
      merge_related := false; _token_cache := cache |}, empty_world).

Definition without_account (cache : option (gmap string pyval)) : state :=
  ({| app_id := "app"; app_secret := "secret"; username := ""; password := "";
      merge_related := false; _token_cache := cache |}, empty_world).

Definition run_first_request (path : string) (token : pyval) : request :=
  first_request the_json_dumps the_repr the_urljoin the_urlencode path None None true token.

Definition match_request_of (st : state) : M (gmap string pyval) :=
  run_request the_server "/api/v2/match"
    (Some (match_payload st.1 "a.mkv" (Some 5%Z) (Some "abc") (Some 0%Z))) None
    (nonempty (username st.1)) true.

Definition match_request_of_with (server : list request → request → result string)
    (st : state) : M (gmap string pyval) :=
  run_request server "/api/v2/match"
    (Some (match_payload st.1 "a.mkv" (Some 5%Z) (Some "abc") (Some 0%Z))) None
    (nonempty (username st.1)) true.

Definition response_of (r : result (gmap string pyval) * state) : gmap string pyval :=
  match r.1 with
  | Ok d => d
  | Raise _ => ∅
  end.

Definition token_expiring_in (d : Q) : gmap string pyval :=
  <["token" := VStr "old"]> (<["expireTime" := VFloat (the_clock 0 + d)]> ∅).

(** The response that [the_json_loads] reads from the text DATA, and
    from the text that [the_json_dumps] writes. *)
Definition data_response : gmap string pyval :=
  <["isMatched" := VBool false]> (<["matches" := VList [VInt 123; VInt 456]]> ∅).

Definition token_issued_at (t : Z) : gmap string pyval :=
  <["token" := VStr "old"]> (<["loginTime" := VInt t]> ∅).

Definition run_login_request (server : list request → request → result string)
    (st : state) : result (gmap string pyval) * state :=
  login_request the_json_loads the_json_dumps the_md5 the_repr the_urljoin the_urlencode
    server st.1 (Py.fmt_d (Py.int_of_float (now the_clock st))) (st.1, tick st.2).

(** A client after a login: the token [old] is in the cache and in
    token.json, whose text is TOKEN; [saved_json_loads] reads that
    text as the token. *)
Definition saved_json_loads (text : string) : option (gmap string pyval) :=
  if String.eqb text "TOKEN" then Some old_token else the_json_loads text.

Definition saved_world : world :=
  {| token_file := Some "TOKEN"; writable := true; sent := []; ticks := 0 |}.

Definition logged_in : state := ((with_account (Some old_token)).1, saved_world).

Definition run_request_saved (st : state) : result (gmap string pyval) * state :=
  _request saved_json_loads the_json_dumps the_md5 the_repr the_iso the_urljoin
    the_urlencode the_server the_clock "/api/v2/match" None None true true st.

(** A token whose [expireTime] is zero. *)
Definition token_expiring_at_zero : gmap string pyval :=
  <["token" := VStr "old"]> (<["expireTime" := VInt 0]> ∅).

End Client.

(** ** DanmakuService: the fingerprint of the file *)

Module Service.

(** [path.startswith(...)] for the three schemes that are not hashed. *)
Definition is_remote (path : string) : bool :=
  String.prefix "http" path || String.prefix "rtmp" path || String.prefix "udp" path.

(** The number of bytes hashed at most, and the length asked from the
    file at each reading. *)
Definition HASH_LIMIT : Z := 16 * 1024 * 1024.
Definition CHUNK : Z := 1024 * 1024.

Section Device.

(** The file object: [file] is its state, [open_file] stands for
    [xbmcvfs.File(path)] and [read_chunk n f] for the reading of at most
    [n] bytes ([readBytes], or [read] followed by the encoding), which
    gives the bytes or an exception, and the file after the reading.
    [cancelled k] is what [cancel_event.is_set()] gives at the test
    number [k] of the loop, and [md5_hexdigest] is the hexadecimal MD5
    digest of bytes. *)
Variable file : Type.
Variable open_file : string → result file.
Variable read_chunk : Z → file → result (list byte) * file.
Variable cancelled : nat → bool.
Variable md5_hexdigest : list byte → string.

(** The loop of [_hash_file], from the test of [remaining > 0]: the
    bytes given to [md5.update] so far are [hashed].  [None] is the
    return of [None] from inside the loop.  Every pass takes at least one
    byte off [remaining], so that [fuel] passes are enough when [fuel] is
    at least [remaining]; the loop is entered with [fuel] equal to
    [remaining]. *)
Fixpoint hash_loop (fuel : nat) (remaining : Z) (k : nat) (f : file) (hashed : list byte)
  : option (list byte) :=
  if (remaining <=? 0)%Z then Some hashed
  else
    match fuel with
    | O => Some hashed
    | S fuel' =>
        if cancelled k then None
        else
          let length := Z.min CHUNK remaining in
          match read_chunk length f with
          | (Raise _, _) => None
          | (Ok chunk, f') =>
              match chunk with
              | [] => Some hashed
              | _ :: _ =>
                  hash_loop fuel' (remaining - Z.of_nat (List.length chunk))%Z (S k) f'
                    (hashed ++ chunk)
              end
          end
    end.

(** The bytes that [_hash_file] hashes, when it returns a digest. *)
Definition hashed_bytes (path : string) : option (list byte) :=
  if is_remote path then None
  else
    match open_file path with
    | Raise _ => None
    | Ok f => hash_loop (Z.to_nat HASH_LIMIT) HASH_LIMIT 0 f []
    end.

(** [_hash_file]. *)
Definition _hash_file (path : string) : option string :=
  md5_hexdigest <$> hashed_bytes path.

(** *** Notions used to state the properties of [_hash_file] *)

(** A reading never gives more bytes than it was asked for. *)
Definition honours_length : Prop :=
  ∀ n f chunk f', read_chunk n f = (Ok chunk, f') → (Z.of_nat (List.length chunk) <= Z.max 0 n)%Z.

(** The file is a plain one: [content f] is what is left to read, and a
    reading of [n] bytes gives the first [n] of them, or all of them
    when fewer are left. *)
Definition plain_file (content : file → list byte) : Prop :=
  ∀ n f, (0 < n)%Z →
    ∃ f', read_chunk n f = (Ok (take (Z.to_nat n) (content f)), f') ∧
          content f' = drop (Z.to_nat n) (content f).

End Device.

(** *** A file on concrete inputs: the bytes left to read *)

Definition read_list (n : Z) (f : list byte) : result (list byte) * list byte :=
  (Ok (take (Z.to_nat n) f), drop (Z.to_nat n) f).

Definition open_list (content : list byte) (path : string) : result (list byte) :=
  Ok content.

Definition never (k : nat) : bool := false.

(** A stand-in for the digest, which keeps the bytes it is given. *)
Definition kept_bytes (bytes : list byte) : string :=
  string_of_list_ascii (List.map (λ b, ascii_of_N (Byte.to_N b)) bytes).

End Service.

(** ** Properties of DanmakuLayout *)

Module LayoutProofs.

Import Layout.

Section Builtins.

(** The builtins are arbitrary, as in [Layout]; the methods are taken
    at them. *)
Variable py_float : string → option Q.
Variable py_int : string → option Z.
Variable py_repr : pyval → string.

Local Abbreviation py_str := (Layout.py_str py_repr).
Local Abbreviation parse_payload := (Layout.parse_payload py_float py_int py_repr).
Local Abbreviation render := (Layout.render py_float py_int py_repr).
Local Abbreviation build_loop := (Layout.build_loop py_float py_int py_repr).
Local Abbreviation build := (Layout.build py_float py_int py_repr).
Local Abbreviation skipped := (Layout.skipped py_float py_int py_repr).
Local Abbreviation renderable := (Layout.renderable py_float py_int py_repr).
Local Abbreviation numeric_p := (Layout.numeric_p py_float py_int py_repr).
Local Abbreviation malformed := (Layout.malformed py_float py_int py_repr).

(** *** Facts about the scan and the minimum *)

Lemma Qle_bool_false (x y : Q) : Qle_bool x y = false → (y < x)%Q.
Proof.
  intros H. apply Qnot_le_lt. intros Hle.
  apply Qle_bool_iff in Hle. congruence.
Qed.

Lemma first_free_Some tracks start n i :
  first_free tracks start n = Some i →
  ∃ k f, i = (n + k)%nat ∧ tracks !! k = Some f ∧ (f <= start)%Q ∧
         ∀ j f', (j < k)%nat → tracks !! j = Some f' → (start < f')%Q.
Proof.
  revert n. induction tracks as [|t tracks IH]; intros n H; simpl in H.
  - discriminate.
  - destruct (Qle_bool t start) eqn:Ht.
    + injection H as <-. exists 0%nat, t. split; [lia|].
      split; [reflexivity|]. split; [by apply Qle_bool_iff|].
      intros j f' Hj. lia.
    + destruct (IH _ H) as (k & f & -> & Hk & Hf & Hbefore).
      exists (S k), f. split; [lia|]. split; [exact Hk|]. split; [exact Hf|].
      intros [|j] f' Hj Hl; simpl in Hl.
      * injection Hl as <-. by apply Qle_bool_false.
      * apply (Hbefore j); [lia|exact Hl].
Qed.

Lemma first_free_None tracks start n :
  first_free tracks start n = None →
  ∀ j f, tracks !! j = Some f → (start < f)%Q.
Proof.
  revert n. induction tracks as [|t tracks IH]; intros n H j f Hl.
  - destruct j; discriminate.
  - simpl in H. destruct (Qle_bool t start) eqn:Ht; [discriminate|].
    destruct j as [|j]; simpl in Hl.
    + injection Hl as <-. by apply Qle_bool_false.
    + by eapply IH.
Qed.

Lemma argmin_from_spec rest : ∀ pre best best_key,
  pre !! best = Some best_key →
  (∀ j f, pre !! j = Some f → (best_key <= f)%Q) →
  (∀ j f, (j < best)%nat → pre !! j = Some f → (best_key < f)%Q) →
  let r := argmin_from best best_key (length pre) rest in
  ∃ m, (pre ++ rest) !! r = Some m ∧
       (∀ j f, (pre ++ rest) !! j = Some f → (m <= f)%Q) ∧
       (∀ j f, (j < r)%nat → (pre ++ rest) !! j = Some f → (m < f)%Q).
Proof.
  induction rest as [|k rest IH]; intros pre best best_key Hb Hmin Hfirst; simpl.
  - rewrite app_nil_r. exists best_key. auto.
  - assert (Hlen : length (pre ++ [k]) = S (length pre))
      by (rewrite length_app; simpl; lia).
    assert (Hk : (pre ++ [k]) !! length pre = Some k)
      by (rewrite lookup_app_r; [|lia]; by rewrite Nat.sub_diag).
    replace (pre ++ k :: rest) with ((pre ++ [k]) ++ rest)
      by (by rewrite <- app_assoc).
    rewrite <- Hlen.
    destruct (Qle_bool best_key k) eqn:Hc.
    + apply Qle_bool_iff in Hc. apply IH.
      * rewrite lookup_app_l; [exact Hb|]. by eapply lookup_lt_Some.
      * intros j f Hl. destruct (decide (j < length pre)%nat) as [Hj|Hj].
        -- rewrite lookup_app_l in Hl by exact Hj. by eapply Hmin.
        -- rewrite lookup_app_r in Hl by lia.
           destruct (j - length pre)%nat as [|x] eqn:E; simpl in Hl.
           ++ by injection Hl as <-.
           ++ destruct x; discriminate.
      * intros j f Hj Hl. apply (Hfirst j); [exact Hj|].
        rewrite lookup_app_l in Hl; [exact Hl|].
        apply lookup_lt_Some in Hb. lia.
    + apply Qle_bool_false in Hc. apply IH.
      * exact Hk.
      * intros j f Hl. destruct (decide (j < length pre)%nat) as [Hj|Hj].
        -- rewrite lookup_app_l in Hl by exact Hj.
           specialize (Hmin _ _ Hl). lra.
        -- rewrite lookup_app_r in Hl by lia.
           destruct (j - length pre)%nat as [|x] eqn:E; simpl in Hl.
           ++ injection Hl as <-. lra.
           ++ destruct x; discriminate.
      * intros j f Hj Hl. rewrite lookup_app_l in Hl by exact Hj.
        specialize (Hmin _ _ Hl). lra.
Qed.

Lemma min_index_spec tracks :
  tracks ≠ [] →
  ∃ r m, min_index tracks = Ok r ∧ tracks !! r = Some m ∧
         (∀ j f, tracks !! j = Some f → (m <= f)%Q) ∧
         (∀ j f, (j < r)%nat → tracks !! j = Some f → (m < f)%Q).
Proof.
  destruct tracks as [|k rest]; [done|]. intros _.
  destruct (argmin_from_spec rest [k] 0%nat k) as (m & H1 & H2 & H3).
  - reflexivity.
  - intros [|j] f Hl; simpl in Hl; [|destruct j; discriminate].
    injection Hl as <-. lra.
  - intros j f Hj. lia.
  - exists (argmin_from 0 k 1 rest), m. simpl in *. auto.
Qed.

(** One grant: what is returned, and which branch produced it. *)
Lemma acquire_track_cases tracks start duration :
  tracks ≠ [] →
  ∃ index, _acquire_track tracks start duration
             = Ok (index, <[index := (start + duration)%Q]> tracks) ∧
           (index < length tracks)%nat ∧
           ((all_busy tracks start = false ∧ first_fit tracks start index) ∨
            (all_busy tracks start = true ∧ least_free tracks start index)).
Proof.
  intros Hne. unfold _acquire_track, all_busy.
  destruct (first_free tracks start 0) as [i|] eqn:Hff.
  - destruct (first_free_Some _ _ _ _ Hff) as (k & f & -> & Hk & Hf & Hbefore).
    simpl. exists k. split; [reflexivity|].
    split; [by eapply lookup_lt_Some|]. left. split; [reflexivity|].
    split; [by exists f|exact Hbefore].
  - destruct (min_index_spec tracks Hne) as (r & m & -> & Hr & Hmin & Hfirst).
    exists r. split; [reflexivity|].
    split; [by eapply lookup_lt_Some|]. right. split; [reflexivity|].
    split; [by eapply first_free_None|]. by exists m.
Qed.

(** While a lane is not overwritten, its free time bounds from below
    the start of every later grant of that lane. *)
Lemma serve_bound requests : ∀ tracks h final L e fL,
  Forall (λ r, (0 <= r.2)%Q) requests →
  serve tracks requests = Ok (h, final) →
  tracks !! L = Some fL → (e <= fL)%Q →
  ∀ j b, h !! j = Some b → g_lane b = L →
    (e <= g_start b)%Q ∨
    ∃ k c, (k ≤ j)%nat ∧ h !! k = Some c ∧ g_lane c = L ∧ g_forced c = true.
Proof.
  induction requests as [|[start duration] rest IH];
    intros tracks h final L e fL Hdur Hs HL He j b Hj Hlane; simpl in Hs.
  - injection Hs as <- <-. destruct j; discriminate.
  - apply Forall_cons in Hdur as [Hd Hdur]. simpl in Hd.
    assert (Hne : tracks ≠ []) by (intros ->; destruct L; discriminate).
    destruct (acquire_track_cases tracks start duration Hne)
      as (index & Hacq & Hlt & Hbranch).
    rewrite Hacq in Hs.
    destruct (serve (<[index:=(start + duration)%Q]> tracks) rest)
      as [[h' final']|] eqn:Hrest; [|discriminate].
    injection Hs as <- <-.
    destruct Hbranch as [[Hfree Hfit]|[Hbusy _]].
    + destruct Hfit as [(f & Hf & Hle) _].
      destruct j as [|j]; simpl in Hj.
      * injection Hj as <-. simpl in *. subst index.
        left. rewrite HL in Hf. injection Hf as <-. lra.
      * destruct (decide (index = L)) as [->|Hneq].
        -- rewrite HL in Hf. injection Hf as <-.
           destruct (IH _ _ _ L e (start + duration)%Q Hdur Hrest) with (j := j) (b := b)
             as [Hok|(k & c & Hk & Hc & HcL & Hcf)]; auto.
           ++ by apply list_lookup_insert_eq.
           ++ lra.
           ++ right. exists (S k), c. split; [lia|]. auto.
        -- destruct (IH _ _ _ L e fL Hdur Hrest) with (j := j) (b := b)
             as [Hok|(k & c & Hk & Hc & HcL & Hcf)]; auto.
           ++ by rewrite list_lookup_insert_ne.
           ++ right. exists (S k), c. split; [lia|]. auto.
    + destruct (decide (index = L)) as [->|Hneq].
      * right. exists 0%nat, (Grant L start (start + duration)%Q (all_busy tracks start)).
        split; [lia|]. split; [reflexivity|]. split; [reflexivity|exact Hbusy].
      * destruct j as [|j]; simpl in Hj.
        -- injection Hj as <-. simpl in Hlane. contradiction.
        -- destruct (IH _ _ _ L e fL Hdur Hrest) with (j := j) (b := b)
             as [Hok|(k & c & Hk & Hc & HcL & Hcf)]; auto.
           ++ by rewrite list_lookup_insert_ne.
           ++ right. exists (S k), c. split; [lia|]. auto.
Qed.

Lemma serve_defined requests : ∀ tracks,
  tracks ≠ [] → ∃ h final, serve tracks requests = Ok (h, final).
Proof.
  induction requests as [|[start duration] rest IH]; intros tracks Hne; simpl.
  - by exists [], tracks.
  - destruct (acquire_track_cases tracks start duration Hne) as (index & -> & Hlt & _).
    destruct (IH (<[index:=(start + duration)%Q]> tracks)) as (h & final & ->).
    + intros Hnil. apply (f_equal length) in Hnil.
      rewrite length_insert in Hnil. simpl in Hnil. lia.
    + by eexists _, _.
Qed.

Lemma serve_overlaps requests : ∀ tracks h final,
  Forall (λ r, (0 <= r.2)%Q) requests →
  serve tracks requests = Ok (h, final) →
  overlaps_only_forced h.
Proof.
  induction requests as [|[start duration] rest IH];
    intros tracks h final Hdur Hs; simpl in Hs.
  - injection Hs as <- <-. intros i j a b _ Hi. destruct i; discriminate.
  - destruct (_acquire_track tracks start duration) as [[index tracks']|] eqn:Hacq;
      [|discriminate].
    destruct (serve tracks' rest) as [[h' final']|] eqn:Hrest; [|discriminate].
    injection Hs as <- <-.
    pose proof Hdur as Hdur0.
    apply Forall_cons in Hdur as [Hd Hdur].
    assert (Hne : tracks ≠ []).
    { intros ->. discriminate. }
    destruct (acquire_track_cases tracks start duration Hne) as (ix & Hacq' & Hlt & _).
    rewrite Hacq in Hacq'. injection Hacq' as -> ->.
    intros i j a b Hij Hi Hj Hlane [Hov1 Hov].
    destruct j as [|j]; [lia|]. simpl in Hj.
    destruct i as [|i]; simpl in Hi.
    + injection Hi as <-. simpl in *.
      destruct (serve_bound rest _ _ _ ix (start + duration)%Q (start + duration)%Q
                  Hdur Hrest) with (j := j) (b := b)
        as [Hok|(k & c & Hk & Hc & HcL & Hcf)]; auto.
      * by apply list_lookup_insert_eq.
      * lra.
      * lra.
      * exists (S k), c. split; [lia|]. auto.
    + destruct (IH _ _ _ Hdur Hrest i j a b) as (k & c & Hk & Hc & HcL & Hcf); auto.
      * lia.
      * by split.
      * exists (S k), c. split; [lia|]. auto.
Qed.

(** C3, as the code has it.  Against a pool of at least one lane and
    for requests of non-negative duration, every request is granted; two
    intervals granted on one lane overlap only if the overwrite branch
    served a grant of that lane after the earlier of the two (the later
    one itself, or one between them); and each grant sets
    the chosen lane to start + duration, the lane being the first one in
    index order whose free time is at most the start, or else, when all
    are busy, the first lane of least free time. *)
Theorem acquire_track_overlap_only_when_forced (tracks : list Q) (requests : list (Q * Q)) :
  tracks ≠ [] →
  Forall (λ r, (0 <= r.2)%Q) requests →
  (∃ h final, serve tracks requests = Ok (h, final) ∧ overlaps_only_forced h) ∧
  (∀ start duration, ∃ index,
      _acquire_track tracks start duration
        = Ok (index, <[index := (start + duration)%Q]> tracks) ∧
      (index < length tracks)%nat ∧
      ((all_busy tracks start = false ∧ first_fit tracks start index) ∨
       (all_busy tracks start = true ∧ least_free tracks start index))).
Proof.
  intros Hne Hdur. split.
  - destruct (serve_defined requests tracks Hne) as (h & final & Hs).
    exists h, final. split; [exact Hs|]. by eapply serve_overlaps.
  - intros start duration. by apply acquire_track_cases.
Qed.

(** *** Facts about [render] and the loop *)

Lemma clamp_nonneg (t : Q) : (0 <= clamp t)%Q.
Proof.
  unfold clamp, Py.float_lt. destruct (Qle_bool 0 t) eqn:H; simpl.
  - by apply Qle_bool_iff.
  - lra.
Qed.

Lemma clamp_negative (t : Q) : (t < 0)%Q → clamp t = 0%Q.
Proof.
  intros H. unfold clamp, Py.float_lt. destruct (Qle_bool 0 t) eqn:Hle; simpl.
  - apply Qle_bool_iff in Hle. lra.
  - reflexivity.
Qed.

Lemma scroll_event_shape L start text color event L' :
  _scroll_event L start text color = Ok (event, L') →
  same_config L L' ∧
  ∃ rest, event = "Dialogue: 0," +:+ _format_time start +:+ "," +:+ rest.
Proof.
  unfold _scroll_event.
  destruct (_acquire_track _ _ _) as [[row tracks']|]; [|discriminate].
  intros H. injection H as <- <-. split; [by repeat split|].
  unfold dialogue. by eexists.
Qed.

Lemma static_event_shape L tracks align start duration text color event tracks' :
  _static_event L tracks align start duration text color = Ok (event, tracks') →
  ∃ rest, event = "Dialogue: 0," +:+ _format_time start +:+ "," +:+ rest.
Proof.
  unfold _static_event.
  destruct (_acquire_track _ _ _) as [[row tr]|]; [|discriminate].
  intros H. injection H as <- <-. unfold dialogue. by eexists.
Qed.

Lemma emit_shape L mode timestamp text color event L' :
  emit L mode timestamp text color = Ok (event, L') →
  same_config L L' ∧
  ∃ rest, event = "Dialogue: 0," +:+ _format_time timestamp +:+ "," +:+ rest.
Proof.
  unfold emit. intros H.
  destruct (mode =? 1)%Z; [by eapply scroll_event_shape|].
  destruct (mode =? 4)%Z.
  { destruct (_static_event _ _ _ _ _ _ _) as [[ev tr]|] eqn:E; [|discriminate].
    injection H as <- <-. split; [by repeat split|]. by eapply static_event_shape. }
  destruct (mode =? 5)%Z.
  { destruct (_static_event _ _ _ _ _ _ _) as [[ev tr]|] eqn:E; [|discriminate].
    injection H as <- <-. split; [by repeat split|]. by eapply static_event_shape. }
  by eapply scroll_event_shape.
Qed.

Lemma render_emitted L comment shift event L' :
  render L comment shift = Ok (Some (event, L')) →
  same_config L L' ∧ skipped comment shift = false ∧
  ∃ t mode color rest,
    parse_payload (Py.get comment "p") shift = Some (t, mode, color) ∧
    event = "Dialogue: 0," +:+ _format_time (clamp t) +:+ "," +:+ rest.
Proof.
  unfold render, skipped.
  destruct (negb (Py.truthy (Py.get comment "p")) || negb (Py.truthy (Py.get comment "m")));
    [discriminate|]. simpl.
  destruct (parse_payload _ _) as [[[t mode] color]|]; [|discriminate].
  unfold strip_text. destruct (Py.get comment "m"); try discriminate.
  destruct (String.eqb (Py.strip s) ""); [discriminate|].
  destruct (emit _ _ _ _ _) as [[ev L1]|] eqn:E; [|discriminate].
  intros H. injection H as <- <-.
  destruct (emit_shape _ _ _ _ _ _ _ E) as [Hc [rest ->]].
  split; [exact Hc|]. split; [reflexivity|]. by exists t, mode, color, rest.
Qed.

Lemma render_skipped L comment shift :
  skipped comment shift = true → render L comment shift = Ok None.
Proof.
  unfold render, skipped.
  destruct (negb (Py.truthy (Py.get comment "p")) || negb (Py.truthy (Py.get comment "m")));
    [reflexivity|]. simpl.
  destruct (parse_payload _ _) as [[[t mode] color]|]; [|reflexivity].
  unfold strip_text. destruct (Py.get comment "m"); try discriminate.
  by intros ->.
Qed.


Lemma same_config_trans L1 L2 L3 :
  same_config L1 L2 → same_config L2 L3 → same_config L1 L3.
Proof. unfold same_config. intuition congruence. Qed.

Lemma build_loop_config comments : ∀ L events count shift,
  same_config L (build_loop L events count comments shift).2.
Proof.
  induction comments as [|c rest IH]; intros L events count shift; simpl.
  - by repeat split.
  - destruct (cap_reached L count); [by repeat split|].
    destruct (render L c shift) as [[[ev L1]|]|] eqn:E; simpl.
    + apply render_emitted in E as [Hc _].
      eapply same_config_trans; [exact Hc|apply IH].
    + apply IH.
    + by repeat split.
Qed.

Lemma restore_pools_id L L' :
  same_config L L' → restore_pools L' L = L.
Proof.
  destruct L, L'. unfold same_config, restore_pools. simpl.
  intros (-> & -> & -> & -> & -> & -> & ->). reflexivity.
Qed.

Lemma build_loop_cap L events count comments shift :
  cap_reached L count = true →
  build_loop L events count comments shift = (Ok events, L).
Proof. intros H. destruct comments; simpl; [reflexivity|by rewrite H]. Qed.

Lemma build_loop_skip L events count comment rest shift :
  skipped comment shift = true →
  build_loop L events count (comment :: rest) shift
    = build_loop L events count rest shift.
Proof.
  intros H. simpl. destruct (cap_reached L count) eqn:Hcap.
  - by rewrite build_loop_cap.
  - by rewrite (render_skipped L _ _ H).
Qed.

Lemma numeric_p_false comment shift :
  numeric_p comment = false → parse_payload (Py.get comment "p") shift = None.
Proof.
  unfold numeric_p, parse_payload.
  destruct (Py.split _ _) as [|p0 [|p1 [|p2 parts]]]; simpl.
  - reflexivity.
  - by destruct (py_float p0).
  - destruct (py_float p0); [|reflexivity]. by destruct (py_int p1).
  - destruct (py_float p0); [|reflexivity].
    destruct (py_int p1); [|reflexivity].
    destruct (py_int p2); [discriminate|reflexivity].
Qed.

Lemma empty_m_falsy comment :
  empty_m comment = true → Py.truthy (Py.get comment "m") = false.
Proof.
  unfold empty_m. destruct (Py.get comment "m"); try discriminate.
  - reflexivity.
  - simpl. by intros ->.
Qed.

Lemma malformed_skipped comment shift :
  malformed comment = true → skipped comment shift = true.
Proof.
  unfold malformed. intros H. apply orb_true_iff in H as [H|H].
  - apply negb_true_iff in H. unfold skipped.
    rewrite (numeric_p_false _ shift H). apply orb_true_r.
  - unfold skipped. rewrite (empty_m_falsy _ H). simpl.
    by rewrite orb_true_r.
Qed.

Lemma build_loop_filter comments : ∀ L events count shift,
  build_loop L events count (List.filter (λ c, negb (malformed c)) comments) shift
    = build_loop L events count comments shift.
Proof.
  induction comments as [|c rest IH]; intros L events count shift.
  - reflexivity.
  - simpl List.filter. destruct (malformed c) eqn:Hm; simpl negb; cbv iota.
    + rewrite (build_loop_skip _ _ _ c rest shift (malformed_skipped _ shift Hm)).
      apply IH.
    + simpl. destruct (cap_reached L count); [reflexivity|].
      destruct (render L c shift) as [[[ev L1]|]|]; [apply IH|apply IH|reflexivity].
Qed.


(** C7. The time passed on to the event is never negative, and a
    comment whose parsed timestamp plus the shift is negative is written
    with the start time 0:00:00.00, whatever its mode.  ([parse_payload]
    returns the timestamp with the shift already added.) *)
Theorem negative_timestamp_starts_at_zero :
  (∀ t, (0 <= clamp t)%Q) ∧
  (∀ L comment shift t mode color event L',
     parse_payload (Py.get comment "p") shift = Some (t, mode, color) →
     (t < 0)%Q →
     render L comment shift = Ok (Some (event, L')) →
     ∃ rest, event = "Dialogue: 0,0:00:00.00," +:+ rest).
Proof.
  split; [exact clamp_nonneg|].
  intros L comment shift t mode color event L' Hp Ht Hr.
  apply render_emitted in Hr as (_ & _ & t' & mode' & color' & rest & Hp' & ->).
  rewrite Hp in Hp'. injection Hp' as <- <- <-.
  rewrite (clamp_negative t Ht). by exists rest.
Qed.

(** C8. For every comment list and shift, [build] on the list without
    its malformed entries (a non-numeric [p] field or an empty [m]
    field) returns what it returns on the whole list, and leaves the
    object in the same state. *)
Theorem build_ignores_malformed (L : layout) (comments : list (gmap string pyval)) (shift : Q) :
  build L (List.filter (λ c, negb (malformed c)) comments) shift
    = build L comments shift.
Proof. unfold build. by rewrite build_loop_filter. Qed.


(** C4, as the code has it.  [build] changes no attribute of the object
    other than the three lane pools, and does not reset them: a second
    call with the same comments and shift returns the same document and
    final state as the first when it starts from the lane pools the
    first call started from, as on a newly constructed object. *)
Theorem build_repeatable_from_same_pools (L : layout) (comments : list (gmap string pyval)) (shift : Q) :
  same_config L (build L comments shift).2 ∧
  build (restore_pools (build L comments shift).2 L) comments shift
    = build L comments shift.
Proof.
  assert (Hc : same_config L (build L comments shift).2).
  { unfold build. pose proof (build_loop_config comments L [] 0%Z shift) as H.
    destruct (build_loop L [] 0%Z comments shift) as [[events|e] L1]; exact H. }
  split; [exact Hc|]. by rewrite (restore_pools_id _ _ Hc).
Qed.

(** *** The lane pools across [build] *)

Lemma acquire_track_length tracks start duration index tracks' :
  _acquire_track tracks start duration = Ok (index, tracks') →
  length tracks' = length tracks.
Proof.
  unfold _acquire_track. destruct (first_free tracks start 0).
  - intros H. injection H as <- <-. apply length_insert.
  - destruct (min_index tracks); [|discriminate].
    intros H. injection H as <- <-. apply length_insert.
Qed.

Lemma acquire_track_runs tracks start duration :
  tracks ≠ [] → ∃ index tracks', _acquire_track tracks start duration = Ok (index, tracks').
Proof.
  intros Hne. destruct (acquire_track_cases tracks start duration Hne) as (i & -> & _).
  by eexists _, _.
Qed.

Lemma nonempty_length {A : Type} (l l' : list A) :
  length l' = length l → l ≠ [] → l' ≠ [].
Proof. intros Hlen Hne ->. destruct l; [done|discriminate]. Qed.

(** What [emit] changes: the pool of the mode, and its length stays. *)
Lemma emit_pools L mode timestamp text color event L' :
  emit L mode timestamp text color = Ok (event, L') →
  same_lanes L L' ∧
  (mode = 4%Z → scroll_tracks L' = scroll_tracks L ∧ top_tracks L' = top_tracks L) ∧
  (mode = 5%Z → scroll_tracks L' = scroll_tracks L ∧ bottom_tracks L' = bottom_tracks L) ∧
  (mode ≠ 4%Z → mode ≠ 5%Z →
     top_tracks L' = top_tracks L ∧ bottom_tracks L' = bottom_tracks L).
Proof.
  unfold emit, _scroll_event, _static_event, same_lanes.
  destruct (mode =? 1)%Z eqn:E1; [apply Z.eqb_eq in E1|apply Z.eqb_neq in E1].
  { destruct (_acquire_track _ _ _) as [[row tracks']|] eqn:Ha; [|discriminate].
    apply acquire_track_length in Ha. intros H. injection H as <- <-. simpl.
    repeat split; auto; lia. }
  destruct (mode =? 4)%Z eqn:E4; [apply Z.eqb_eq in E4|apply Z.eqb_neq in E4].
  { destruct (_acquire_track _ _ _) as [[row tracks']|] eqn:Ha; [|discriminate].
    apply acquire_track_length in Ha. intros H. injection H as <- <-. simpl.
    repeat split; auto; lia. }
  destruct (mode =? 5)%Z eqn:E5; [apply Z.eqb_eq in E5|apply Z.eqb_neq in E5].
  { destruct (_acquire_track _ _ _) as [[row tracks']|] eqn:Ha; [|discriminate].
    apply acquire_track_length in Ha. intros H. injection H as <- <-. simpl.
    repeat split; auto; lia. }
  destruct (_acquire_track _ _ _) as [[row tracks']|] eqn:Ha; [|discriminate].
  apply acquire_track_length in Ha. intros H. injection H as <- <-. simpl.
  repeat split; auto; lia.
Qed.

Lemma emit_runs L mode timestamp text color :
  has_lanes L → ∃ event L', emit L mode timestamp text color = Ok (event, L').
Proof.
  intros (Hs & Ht & Hb). unfold emit, _scroll_event, _static_event.
  destruct (acquire_track_runs (scroll_tracks L) timestamp (inject_Z (scroll_duration L)) Hs)
    as (i1 & t1 & E1).
  destruct (acquire_track_runs (bottom_tracks L) timestamp 4 Hb) as (i2 & t2 & E2).
  destruct (acquire_track_runs (top_tracks L) timestamp 4 Ht) as (i3 & t3 & E3).
  rewrite E1, E2, E3.
  destruct (mode =? 1)%Z; [by eexists _, _|].
  destruct (mode =? 4)%Z; [by eexists _, _|].
  destruct (mode =? 5)%Z; by eexists _, _.
Qed.

Lemma render_pools L comment shift event L' :
  render L comment shift = Ok (Some (event, L')) →
  same_lanes L L' ∧
  ∃ t mode color,
    parse_payload (Py.get comment "p") shift = Some (t, mode, color) ∧
    (mode = 4%Z → scroll_tracks L' = scroll_tracks L ∧ top_tracks L' = top_tracks L) ∧
    (mode = 5%Z → scroll_tracks L' = scroll_tracks L ∧ bottom_tracks L' = bottom_tracks L) ∧
    (mode ≠ 4%Z → mode ≠ 5%Z →
       top_tracks L' = top_tracks L ∧ bottom_tracks L' = bottom_tracks L).
Proof.
  unfold render.
  destruct (negb (Py.truthy (Py.get comment "p")) || negb (Py.truthy (Py.get comment "m")));
    [discriminate|].
  destruct (parse_payload _ _) as [[[t mode] color]|]; [|discriminate].
  destruct (strip_text _) as [clean|]; [|discriminate].
  destruct (String.eqb clean ""); [discriminate|].
  destruct (emit _ _ _ _ _) as [[ev L1]|] eqn:E; [|discriminate].
  intros H. injection H as <- <-.
  destruct (emit_pools _ _ _ _ _ _ _ E) as (Hl & H4 & H5 & Hother).
  split; [exact Hl|]. by exists t, mode, color.
Qed.

Lemma same_lanes_has_lanes L L' : same_lanes L L' → has_lanes L → has_lanes L'.
Proof.
  intros (H1 & H2 & H3) (Hs & Ht & Hb).
  repeat split; eapply nonempty_length; eauto.
Qed.

Lemma render_runs L comment shift :
  has_lanes L → text_is_string comment = true →
  ∃ r, render L comment shift = Ok r.
Proof.
  intros HL Htext. unfold render.
  destruct (negb (Py.truthy (Py.get comment "p")) || negb (Py.truthy (Py.get comment "m")))
    eqn:Hfalsy; [by eexists|].
  destruct (parse_payload _ _) as [[[t mode] color]|]; [|by eexists].
  unfold text_is_string in Htext. apply orb_false_iff in Hfalsy as [_ Hm].
  apply negb_false_iff in Hm.
  destruct (Py.get comment "m") eqn:Em; simpl in *; try congruence;
    try (rewrite Hm in Htext; discriminate).
  destruct (String.eqb (Py.strip s) ""); [by eexists|].
  destruct (emit_runs L mode (clamp t) (Py.strip s) (_ass_color color) HL)
    as (ev & L' & ->).
  by eexists.
Qed.

Lemma build_loop_lanes comments : ∀ L events count shift,
  same_lanes L (build_loop L events count comments shift).2.
Proof.
  induction comments as [|c rest IH]; intros L events count shift; simpl.
  - by repeat split.
  - destruct (cap_reached L count); [by repeat split|].
    destruct (render L c shift) as [[[ev L1]|]|] eqn:E; simpl.
    + apply render_pools in E as [(H1 & H2 & H3) _].
      destruct (IH L1 (events ++ [ev]) (count + 1)%Z shift) as (I1 & I2 & I3).
      repeat split; congruence.
    + apply IH.
    + by repeat split.
Qed.

Lemma build_loop_runs comments : ∀ L events count shift,
  has_lanes L → Forall (λ c, text_is_string c = true) comments →
  ∃ out L', build_loop L events count comments shift = (Ok out, L').
Proof.
  induction comments as [|c rest IH]; intros L events count shift HL Hall; simpl.
  - by eexists _, _.
  - apply Forall_cons in Hall as [Hc Hall].
    destruct (cap_reached L count); [by eexists _, _|].
    destruct (render_runs L c shift HL Hc) as ([[ev L1]|] & E); rewrite E.
    + apply IH; [|exact Hall].
      apply render_pools in E as [Hl _]. by eapply same_lanes_has_lanes.
    + by apply IH.
Qed.

(** X7. On an object whose three pools have at least one lane, as
    after [__init__], for comments whose [m] field is a string or
    falsy, and where [float()] raises or gives a finite number on the
    time of every [p] field and the sum of that number and the shift is
    finite (the floats of the embedding), [build] returns a document: no
    exception leaves it, whatever else the [p] fields and the cap are.
    A time that [float()] reads as nan or as an infinity is not covered:
    there the code raises from [_format_time]. *)
Theorem build_returns_a_document L comments shift :
  has_lanes L →
  Forall (λ c, text_is_string c = true) comments →
  ∃ doc L', build L comments shift = (Ok doc, L').
Proof.
  intros HL Hall. unfold build.
  destruct (build_loop_runs comments L [] 0%Z shift HL Hall) as (out & L' & ->).
  by eexists _, _.
Qed.

(** X8. [build] never changes the number of lanes of a pool, whether
    it returns or raises: an object made by [__init__] keeps 12, 5 and 5
    lanes however many comments it is given. *)
Theorem build_keeps_lane_counts L comments shift :
  same_lanes L (build L comments shift).2 ∧
  ∀ scroll_duration max_comments,
    L = __init__ scroll_duration max_comments →
    length (scroll_tracks (build L comments shift).2) = 12%nat ∧
    length (top_tracks (build L comments shift).2) = 5%nat ∧
    length (bottom_tracks (build L comments shift).2) = 5%nat.
Proof.
  assert (H : same_lanes L (build L comments shift).2).
  { unfold build. pose proof (build_loop_lanes comments L [] 0%Z shift) as H.
    destruct (build_loop L [] 0%Z comments shift) as [[out|e] L']; exact H. }
  split; [exact H|]. intros sd mc ->. destruct H as (H1 & H2 & H3).
  rewrite H1, H2, H3. by repeat split.
Qed.

(** X9. One pass of the loop of [build] that appends a line changes
    the pool of the mode of the comment only: bottom for mode 4, top for
    mode 5, scrolling for every other mode. *)
Theorem render_changes_one_pool L comment shift event L' t mode color :
  render L comment shift = Ok (Some (event, L')) →
  parse_payload (Py.get comment "p") shift = Some (t, mode, color) →
  (mode = 4%Z → scroll_tracks L' = scroll_tracks L ∧ top_tracks L' = top_tracks L) ∧
  (mode = 5%Z → scroll_tracks L' = scroll_tracks L ∧ bottom_tracks L' = bottom_tracks L) ∧
  (mode ≠ 4%Z → mode ≠ 5%Z →
     top_tracks L' = top_tracks L ∧ bottom_tracks L' = bottom_tracks L).
Proof.
  intros Hr Hp.
  destruct (render_pools _ _ _ _ _ Hr) as (_ & t' & m' & c' & Hp' & H).
  rewrite Hp in Hp'. by injection Hp' as <- <- <-.
Qed.

Lemma string_app_nil_r (a : string) : a +:+ "" = a.
Proof.
  induction a as [|x a IH]; [reflexivity|].
  change (String x (a +:+ "") = String x a). by f_equal.
Qed.

(** X10. When every comment of the list is one the loop skips (the
    empty list included), [build] returns the header alone and leaves
    the object as it was. *)
Theorem build_nothing_to_render L comments shift :
  Forall (λ c, skipped c shift = true) comments →
  build L comments shift = (Ok header, L).
Proof.
  intros Hall. unfold build.
  assert (H : build_loop L [] 0%Z comments shift = (Ok [], L)).
  { induction Hall as [|c rest Hc _ IH]; [reflexivity|].
    by rewrite build_loop_skip. }
  rewrite H. simpl. by rewrite string_app_nil_r.
Qed.

(** X11. The loop of [build] treats a list in two parts as it treats
    the whole: after the first part it goes on with the second from the
    object, the lines and the count that the first part left. *)
Theorem build_loop_in_two_parts first : ∀ second L events count shift,
  build_loop L events count (first ++ second) shift
  = match build_loop L events count first shift with
    | (Ok events', L') =>
        build_loop L' events'
          (count + Z.of_nat (length events') - Z.of_nat (length events))%Z second shift
    | (Raise e, L') => (Raise e, L')
    end.
Proof.
  induction first as [|c rest IH]; intros second L events count shift.
  - simpl. f_equal. lia.
  - simpl. destruct (cap_reached L count) eqn:Hcap.
    + replace (count + Z.of_nat (length events) - Z.of_nat (length events))%Z
        with count by lia.
      by rewrite build_loop_cap.
    + destruct (render L c shift) as [[[ev L1]|]|] eqn:E.
      * rewrite IH. destruct (build_loop L1 (events ++ [ev]) (count + 1)%Z rest shift)
          as [[events'|e] L'] eqn:Hb; [|reflexivity].
        f_equal. rewrite length_app. simpl. lia.
      * apply IH.
      * reflexivity.
Qed.

End Builtins.

(** *** Colours *)

Lemma string_length_app (a b : string) :
  String.length (a +:+ b) = (String.length a + String.length b)%nat.
Proof.
  induction a as [|c a IH]; [reflexivity|].
  change (S (String.length (a +:+ b)) = S (String.length a + String.length b)).
  by f_equal.
Qed.

Lemma string_app_assoc (a b c : string) : (a +:+ b) +:+ c = a +:+ (b +:+ c).
Proof.
  induction a as [|x a IH]; [reflexivity|].
  change (String x ((a +:+ b) +:+ c) = String x (a +:+ (b +:+ c))).
  by f_equal.
Qed.

Lemma fmt_02X_byte (n : Z) :
  (0 <= n < 256)%Z → String.length (Py.fmt_02X n) = 2%nat.
Proof.
  intros Hn.
  assert (Hall : forallb (λ k, Nat.eqb (String.length (Py.fmt_02X (Z.of_nat k))) 2)
                   (seq 0 256) = true) by (vm_compute; reflexivity).
  rewrite forallb_forall in Hall.
  specialize (Hall (Z.to_nat n)). rewrite Z2Nat.id in Hall by lia.
  apply Nat.eqb_eq, Hall, in_seq. lia.
Qed.

Lemma land_255_byte (x : Z) : (0 <= Z.land x 255 < 256)%Z.
Proof.
  change 255%Z with (Z.ones 8). rewrite Z.land_ones by lia.
  apply Z.mod_pos_bound. lia.
Qed.

Lemma channel_low_bits (x k : Z) :
  (0 <= k)%Z → (k + 8 <= 24)%Z →
  Z.land (Z.shiftr (x mod 16777216) k) 255 = Z.land (Z.shiftr x k) 255.
Proof.
  intros Hk Hk8. apply Z.bits_inj'. intros n Hn.
  rewrite !Z.land_spec, !Z.shiftr_spec by lia.
  change 255%Z with (Z.ones 8). rewrite Z.testbit_ones_nonneg by lia.
  destruct (n <? 8)%Z eqn:Hlt; [|by rewrite !andb_false_r].
  apply Z.ltb_lt in Hlt. rewrite !andb_true_r.
  change 16777216%Z with (2 ^ 24)%Z. apply Z.mod_pow2_bits_low. lia.
Qed.

(** X1. For every integer, negative ones and ones above 24 bits
    included, [_ass_color] gives a text of eleven characters, and the
    text depends on the 24 low bits only. *)
Theorem ass_color_eleven_characters (rgb : Z) :
  String.length (_ass_color rgb) = 11%nat ∧
  _ass_color rgb = _ass_color (rgb mod 16777216).
Proof.
  split.
  - unfold _ass_color. rewrite !string_length_app.
    rewrite !fmt_02X_byte by apply land_255_byte. vm_compute. reflexivity.
  - unfold _ass_color.
    pose proof (channel_low_bits rgb 0 ltac:(lia) ltac:(lia)) as Hb.
    rewrite !Z.shiftr_0_r in Hb.
    rewrite (channel_low_bits rgb 16), (channel_low_bits rgb 8), Hb by lia.
    reflexivity.
Qed.

(** X2. For red, green and blue between 0 and 255, the colour
    red * 65536 + green * 256 + blue is written with the blue byte first
    and the red byte last. *)
Theorem ass_color_blue_green_red (r g b : Z) :
  (0 <= r < 256)%Z → (0 <= g < 256)%Z → (0 <= b < 256)%Z →
  _ass_color (r * 65536 + g * 256 + b)
  = "&H00" +:+ Py.fmt_02X b +:+ Py.fmt_02X g +:+ Py.fmt_02X r +:+ "&".
Proof.
  intros Hr Hg Hb. unfold _ass_color.
  change 255%Z with (Z.ones 8). rewrite !Z.land_ones by lia.
  rewrite !Z.shiftr_div_pow2 by lia.
  change (2 ^ 16)%Z with 65536%Z. change (2 ^ 8)%Z with 256%Z.
  assert (H16 : ((r * 65536 + g * 256 + b) / 65536 = r)%Z).
  { symmetry. apply (Z.div_unique _ _ _ (g * 256 + b)); lia. }
  assert (H8 : ((r * 65536 + g * 256 + b) / 256 = r * 256 + g)%Z).
  { symmetry. apply (Z.div_unique _ _ _ b); lia. }
  assert (Hmb : ((r * 65536 + g * 256 + b) mod 256 = b)%Z).
  { symmetry. apply (Z.mod_unique _ _ (r * 256 + g)); lia. }
  assert (Hmg : ((r * 256 + g) mod 256 = g)%Z).
  { symmetry. apply (Z.mod_unique _ _ r); lia. }
  rewrite H16, H8, Hmb, Hmg, (Z.mod_small r) by lia. reflexivity.
Qed.

(** *** Escaping *)

Lemma occurs_app c (a b : string) : occurs c (a +:+ b) ↔ occurs c a ∨ occurs c b.
Proof.
  unfold occurs. induction a as [|x a IH]; simpl.
  - tauto.
  - rewrite IH. tauto.
Qed.

Lemma replace_app old new (a b : string) :
  Py.replace old new (a +:+ b) = Py.replace old new a +:+ Py.replace old new b.
Proof.
  induction a as [|x a IH]; [reflexivity|].
  change (Py.replace old new (String x (a +:+ b))
          = Py.replace old new (String x a) +:+ Py.replace old new b).
  simpl. rewrite IH. destruct (Ascii.eqb x old); [|reflexivity].
  by rewrite string_app_assoc.
Qed.

Lemma replace_removes old new s :
  ¬ occurs old new → ¬ occurs old (Py.replace old new s).
Proof.
  intros Hnew. induction s as [|x s IH]; simpl; [by intros []|].
  destruct (Ascii.eqb x old) eqn:E.
  - rewrite occurs_app. tauto.
  - apply Ascii.eqb_neq in E. unfold occurs in *. simpl. intros [H|H]; [congruence|tauto].
Qed.

Lemma replace_keeps_absent c old new s :
  ¬ occurs c s → ¬ occurs c new → ¬ occurs c (Py.replace old new s).
Proof.
  intros Hs Hnew. induction s as [|x s IH]; simpl; [by intros []|].
  assert (Hx : x ≠ c ∧ ¬ occurs c s) by (unfold occurs in *; simpl in Hs; tauto).
  destruct Hx as [Hx Hrest]. destruct (Ascii.eqb x old).
  - rewrite occurs_app. tauto.
  - unfold occurs in *. simpl. intros [H|H]; [congruence|tauto].
Qed.

Lemma replace_absent old new s :
  ¬ occurs old s → Py.replace old new s = s.
Proof.
  induction s as [|x s IH]; simpl; [reflexivity|]. intros H.
  assert (Hx : x ≠ old ∧ ¬ occurs old s) by (unfold occurs in *; simpl in H; tauto).
  destruct Hx as [Hx Hrest]. apply Ascii.eqb_neq in Hx. rewrite Hx.
  by rewrite IH.
Qed.

(** X3. The text returned by [_escape] contains neither a carriage
    return nor a line feed, so an escaped text stays on one line of the
    document. *)
Theorem escape_has_no_line_break (text : string) :
  ¬ occurs (ascii_of_nat 13) (_escape text) ∧
  ¬ occurs (ascii_of_nat 10) (_escape text).
Proof.
  unfold _escape. split.
  - apply replace_keeps_absent.
    + apply replace_removes. unfold occurs. simpl. intros [H|[]]. discriminate.
    + unfold occurs, bs, backslash. simpl. intros [H|[H|[]]]; discriminate.
  - apply replace_removes. unfold occurs, bs, backslash. simpl.
    intros [H|[H|[]]]; discriminate.
Qed.

(** X4. [_escape] works character by character: the escaped form of a
    concatenation is the concatenation of the escaped forms. *)
Theorem escape_concatenation (a b : string) :
  _escape (a +:+ b) = _escape a +:+ _escape b.
Proof. unfold _escape. by rewrite !replace_app. Qed.

(** X5. A text without backslash, brace, carriage return and line feed
    is returned unchanged by [_escape]. *)
Theorem escape_plain_text (text : string) :
  (∀ c, occurs c text → special c = false) → _escape text = text.
Proof.
  intros Hplain.
  assert (Habs : ∀ c, special c = true → ¬ occurs c text).
  { intros c Hc Hocc. rewrite (Hplain c Hocc) in Hc. discriminate. }
  unfold _escape.
  rewrite (replace_absent backslash) by (by apply Habs).
  rewrite (replace_absent "{"%char) by (by apply Habs).
  rewrite (replace_absent "}"%char) by (by apply Habs).
  rewrite (replace_absent (ascii_of_nat 13)) by (by apply Habs).
  rewrite (replace_absent (ascii_of_nat 10)) by (by apply Habs).
  reflexivity.
Qed.

(** *** The fields of a formatted time *)

Lemma fmt_02d_two_digits (n : Z) :
  (0 <= n < 100)%Z → String.length (Py.fmt_02d n) = 2%nat.
Proof.
  intros Hn.
  assert (Hall : forallb (λ k, Nat.eqb (String.length (Py.fmt_02d (Z.of_nat k))) 2)
                   (seq 0 100) = true) by (vm_compute; reflexivity).
  rewrite forallb_forall in Hall.
  specialize (Hall (Z.to_nat n)). rewrite Z2Nat.id in Hall by lia.
  apply Nat.eqb_eq, Hall, in_seq. lia.
Qed.

Lemma int_of_float_floor (x : Q) : (0 <= x)%Q → Py.int_of_float x = Qfloor x.
Proof.
  destruct x as [n d]. unfold Qle, Py.int_of_float, Qfloor. simpl. intros H.
  apply Z.quot_div_nonneg; lia.
Qed.

Lemma fraction_bounds (x : Q) :
  (0 <= x)%Q →
  (0 <= Py.int_of_float x)%Z ∧
  (0 <= x - inject_Z (Py.int_of_float x))%Q ∧
  (x - inject_Z (Py.int_of_float x) < 1)%Q.
Proof.
  intros Hx. rewrite (int_of_float_floor x Hx).
  pose proof (Qfloor_le x) as Hle. pose proof (Qlt_floor x) as Hlt.
  rewrite inject_Z_plus in Hlt. change (inject_Z 1) with 1%Q in Hlt.
  split; [|split; lra].
  apply Qfloor_resp_le in Hx. exact Hx.
Qed.

Lemma round_hundredths (y : Q) :
  (0 <= y)%Q → (y < 100)%Q →
  (0 <= Py.round y <= 100)%Z ∧
  ((y < 199 # 2)%Q → (Py.round y < 100)%Z) ∧
  ((199 # 2 <= y)%Q → Py.round y = 100%Z).
Proof.
  intros H0 H100.
  assert (Hf0 : (0 <= Qfloor y)%Z) by (apply Qfloor_resp_le in H0; exact H0).
  assert (Hf99 : (Qfloor y <= 99)%Z).
  { destruct (Z_le_gt_dec (Qfloor y) 99%Z) as [H|H]; [exact H|exfalso].
    pose proof (Qfloor_le y) as Hle.
    assert (Hi : (inject_Z 100 <= inject_Z (Qfloor y))%Q)
      by (rewrite <- Zle_Qle; lia).
    change (inject_Z 100) with 100%Q in Hi. lra. }
  pose proof (Qfloor_le y) as Hle. pose proof (Qlt_floor y) as Hlt.
  rewrite inject_Z_plus in Hlt. change (inject_Z 1) with 1%Q in Hlt.
  unfold Py.round.
  destruct (Z.eq_dec (Qfloor y) 99%Z) as [E|E].
  - rewrite E in *. change (inject_Z 99) with 99%Q in *.
    destruct (y - 99 ?= 1 # 2)%Q eqn:C.
    + apply Qeq_alt in C. simpl. split; [lia|]. split; [intros; lra|reflexivity].
    + apply Qlt_alt in C. split; [lia|]. split; [lia|intros; lra].
    + apply Qgt_alt in C. split; [lia|]. split; [intros; lra|reflexivity].
  - assert (Hf98 : (Qfloor y <= 98)%Z) by lia.
    assert (Hi : (inject_Z (Qfloor y) <= inject_Z 98)%Q) by (by rewrite <- Zle_Qle).
    change (inject_Z 98) with 98%Q in Hi.
    split; [|split].
    + destruct (_ ?= _)%Q; [destruct (Z.even _)| |]; lia.
    + intros _. destruct (_ ?= _)%Q; [destruct (Z.even _)| |]; lia.
    + intros Hy. lra.
Qed.

(** X6. In the text of [_format_time], the minutes and the seconds
    are always written with two digits, and the hundredths with two
    digits or as 100: with two digits when the fraction of the second
    is at most 0.99, as 100 when it is 0.995 or more.  Between the two
    the rounding of the product by 100 decides, which is not stated
    here.  A negative time is formatted as zero. *)
Theorem format_time_fields (seconds : Q) :
  let s := clamp seconds in
  let total := Py.int_of_float s in
  let fraction := (s - inject_Z total)%Q in
  ∃ mm ss cs,
    _format_time seconds
      = Py.fmt_d (total / 3600) +:+ ":" +:+ mm +:+ ":" +:+ ss +:+ "." +:+ cs ∧
    (0 <= total)%Z ∧
    String.length mm = 2%nat ∧ String.length ss = 2%nat ∧
    (String.length cs = 2%nat ∨ cs = "100") ∧
    ((fraction <= 99 # 100)%Q → String.length cs = 2%nat) ∧
    ((199 # 200 <= fraction)%Q → cs = "100") ∧
    ((seconds < 0)%Q → _format_time seconds = "0:00:00.00").
Proof.
  intros s total fraction.
  pose proof (clamp_nonneg seconds) as Hs. fold s in Hs.
  destruct (fraction_bounds s Hs) as (Ht & Hf0 & Hf1). fold total in Ht, Hf0, Hf1.
  fold fraction in Hf0, Hf1.
  destruct (round_hundredths (fraction * 100)%Q) as (Hr & Hlow & Hhigh); [lra..|].
  exists (Py.fmt_02d (total mod 3600 / 60)), (Py.fmt_02d (total mod 60)),
         (Py.fmt_02d (Py.round (fraction * 100))).
  split; [reflexivity|]. split; [exact Ht|].
  split.
  { apply fmt_02d_two_digits.
    pose proof (Z.mod_pos_bound total 3600 ltac:(lia)).
    split; [apply Z.div_pos; lia|apply Z.div_lt_upper_bound; lia]. }
  split.
  { apply fmt_02d_two_digits.
    pose proof (Z.mod_pos_bound total 60 ltac:(lia)). lia. }
  assert (Htwo : (fraction < 199 # 200)%Q →
                 String.length (Py.fmt_02d (Py.round (fraction * 100))) = 2%nat).
  { intros Hfr. apply fmt_02d_two_digits.
    assert (Hy : (fraction * 100 < 199 # 2)%Q) by lra.
    specialize (Hlow Hy). lia. }
  assert (Hmax : (199 # 200 <= fraction)%Q →
                 Py.fmt_02d (Py.round (fraction * 100)) = "100").
  { intros Hfr. rewrite Hhigh by lra. reflexivity. }
  split; [|split; [|split; [exact Hmax|]]].
  - destruct (Qlt_le_dec fraction (199 # 200)) as [Hfr|Hfr]; [left|right]; auto.
  - intros Hfr. apply Htwo. lra.
  - intros Hneg. unfold _format_time.
    change (if Py.float_lt seconds 0 then 0%Q else seconds) with (clamp seconds).
    by rewrite (clamp_negative _ Hneg).
Qed.

(** *** The model on concrete inputs *)

(** The example of the specification: one scrolling line, shifted by
    -2.5 seconds, white. *)
Example build_spec_example :
  (run_build (__init__ 6 3000) [comment "10.0,1,16777215" "hello"] (-5 # 2)).1
  = Ok (header +:+
        "Dialogue: 0,0:00:07.50,0:00:13.50,Danmaku,,0,0,0,,{"
        +:+ bs "move(1970,20,-194,20)" +:+ bs "c&H00FFFFFF&}hello").
Proof. vm_compute. reflexivity. Qed.

(** A pool of one lane: the second request is forced onto the busy lane
    and lowers its free time, so that the third, served by the scan,
    overlaps the first. *)
Example serve_after_overwrite :
  serve [0%Q] [(10%Q, 4%Q); (5%Q, 4%Q); (19 # 2, 4%Q)]
  = Ok ([Grant 0 10 (10 + 4) false; Grant 0 5 (5 + 4) true;
         Grant 0 (19 # 2) ((19 # 2) + 4) false],
        [((19 # 2) + 4)%Q]).
Proof. reflexivity. Qed.

(** C3, counterexample.  On a pool of one lane, after the requests at
    10 and at 5, the lane is free at 9: the third grant, at 9.5, comes
    from the scan, not from the overwrite branch, and its interval, 9.5
    to 13.5, overlaps the interval of the first grant, 10 to 14, on the
    same lane.  The invariant as the specification words it fails. *)
Lemma overlap_granted_by_the_scan :
  ∃ h final a b,
    serve [0%Q] [(10%Q, 4%Q); (5%Q, 4%Q); (19 # 2, 4%Q)] = Ok (h, final) ∧
    h !! 0%nat = Some a ∧ h !! 2%nat = Some b ∧
    g_lane a = g_lane b ∧ overlap a b ∧ g_forced b = false ∧
    all_busy [(5 + 4)%Q] (19 # 2) = false ∧
    ¬ overlap_forces_later h.
Proof.
  eexists _, _, _, _. split; [reflexivity|].
  split; [reflexivity|]. split; [reflexivity|]. split; [reflexivity|].
  assert (Hov : overlap (Grant 0 10 (10 + 4) false)
                        (Grant 0 (19 # 2) ((19 # 2) + 4) false))
    by (split; reflexivity).
  split; [exact Hov|]. split; [reflexivity|]. split; [reflexivity|].
  intros Hspec.
  specialize (Hspec 0%nat 2%nat _ _ ltac:(lia) eq_refl eq_refl eq_refl Hov).
  discriminate.
Qed.

(** The same through [build], on a new object with a scrolling time of
    6 s: the comment at 5 s is forced onto lane 0 and frees it at 11 s,
    and the comment at 11 s, served by the scan, crosses the screen on
    lane 0 (y = 20) from 11 s to 17 s while the first one is there from
    10 s to 16 s. *)
Example build_overlap_granted_by_the_scan :
  ∃ events L',
    run_build_loop (__init__ 6 3000) out_of_order_comments 0 = (Ok events, L') ∧
    events !! 0%nat
      = Some ("Dialogue: 0,0:00:10.00,0:00:16.00,Danmaku,,0,0,0,,{"
              +:+ bs "move(1970,20,-79,20)" +:+ bs "c&H00FFFFFF&}a") ∧
    events !! 12%nat
      = Some ("Dialogue: 0,0:00:05.00,0:00:11.00,Danmaku,,0,0,0,,{"
              +:+ bs "move(1970,20,-79,20)" +:+ bs "c&H00FFFFFF&}b") ∧
    events !! 13%nat
      = Some ("Dialogue: 0,0:00:11.00,0:00:17.00,Danmaku,,0,0,0,,{"
              +:+ bs "move(1970,20,-79,20)" +:+ bs "c&H00FFFFFF&}c").
Proof. eexists _, _. split; [vm_compute; reflexivity|]. repeat split. Qed.

Lemma acquire_track_overlap_witness :
  [0%Q] ≠ [] ∧
  Forall (λ r : Q * Q, (0 <= r.2)%Q) [(10%Q, 4%Q); (5%Q, 4%Q); (19 # 2, 4%Q)] ∧
  ∃ h final,
    serve [0%Q] [(10%Q, 4%Q); (5%Q, 4%Q); (19 # 2, 4%Q)] = Ok (h, final) ∧
    overlaps_only_forced h.
Proof.
  assert (H1 : [0%Q] ≠ []) by discriminate.
  assert (H2 : Forall (λ r : Q * Q, (0 <= r.2)%Q)
                 [(10%Q, 4%Q); (5%Q, 4%Q); (19 # 2, 4%Q)]).
  { repeat constructor; simpl; discriminate. }
  split; [exact H1|]. split; [exact H2|].
  exact (proj1 (acquire_track_overlap_only_when_forced _ _ H1 H2)).
Defined.

Lemma negative_timestamp_witness :
  parse_payload Py.dec_float Py.dec_int no_repr
    (Py.get (comment "1.0,5,255" "hi") "p") (-5 # 2) = Some (-3 # 2, 5%Z, 255%Z) ∧
  (-3 # 2 < 0)%Q ∧
  ∃ event L',
    render Py.dec_float Py.dec_int no_repr (__init__ 6 3000)
      (comment "1.0,5,255" "hi") (-5 # 2) = Ok (Some (event, L')) ∧
    ∃ rest, event = "Dialogue: 0,0:00:00.00," +:+ rest.
Proof.
  assert (Hp : parse_payload Py.dec_float Py.dec_int no_repr
                 (Py.get (comment "1.0,5,255" "hi") "p") (-5 # 2)
               = Some (-3 # 2, 5%Z, 255%Z)) by (vm_compute; reflexivity).
  assert (Ht : (-3 # 2 < 0)%Q) by reflexivity.
  split; [exact Hp|]. split; [exact Ht|].
  destruct (render Py.dec_float Py.dec_int no_repr (__init__ 6 3000)
              (comment "1.0,5,255" "hi") (-5 # 2)) as [[[event L']|]|] eqn:Hr;
    [|vm_compute in Hr; discriminate..].
  exists event, L'. split; [reflexivity|].
  exact (proj2 (negative_timestamp_starts_at_zero Py.dec_float Py.dec_int no_repr)
           _ _ _ _ _ _ _ _ Hp Ht Hr).
Defined.


(** With the cap at two, the five comments above give the two lines of
    the first two that pass the tests; without a cap, three lines. *)
Example build_cap_example :
  renderable Py.dec_float Py.dec_int no_repr five_comments 0 = 3%Z ∧
  (run_build (__init__ 6 2) five_comments 0).1
  = Ok (header +:+
        "Dialogue: 0,0:00:01.00,0:00:07.00,Danmaku,,0,0,0,,{"
        +:+ bs "move(1970,20,-136,20)" +:+ bs "c&H00FF0000&}one" +:+ nl +:+
        "Dialogue: 0,0:00:03.00,0:00:07.00,Danmaku,,0,0,0,,{"
        +:+ bs "an8" +:+ bs "pos(960,20)" +:+ bs "c&H00FF0000&}two").
Proof. split; vm_compute; reflexivity. Qed.

(** C4, counterexample.  Two calls of [build] on one object with the
    same comment list and shift: the second call finds lane 0 of the
    scrolling pool busy until 16 and puts the line on lane 1, so the
    documents differ. *)
Lemma build_twice_on_one_object_differs :
  ∃ doc1 L1 doc2 L2,
    run_build (__init__ 6 3000) [comment "10.0,1,16777215" "hello"] 0 = (Ok doc1, L1) ∧
    run_build L1 [comment "10.0,1,16777215" "hello"] 0 = (Ok doc2, L2) ∧
    doc1 ≠ doc2.
Proof.
  eexists _, _, _, _. split; [vm_compute; reflexivity|].
  split; [vm_compute; reflexivity|].
  apply String.eqb_neq. vm_compute. reflexivity.
Qed.

(** C9, on the code.  A fraction of a second of 0.995 or more rounds to
    100 hundredths, and [_format_time] writes them as three digits
    without a carry into the seconds. *)
Lemma format_time_hundred_centiseconds :
  _format_time (1023 # 1024) = "0:00:00.100" ∧
  (run_build (__init__ 6 3000) [comment "0.9990234375,1,16777215" "x"] 0).1
  = Ok (header +:+
        "Dialogue: 0,0:00:00.100,0:00:06.100,Danmaku,,0,0,0,,{"
        +:+ bs "move(1970,20,-79,20)" +:+ bs "c&H00FFFFFF&}x").
Proof. split; vm_compute; reflexivity. Qed.

Lemma ass_color_orange_witness :
  (0 <= 255 < 256)%Z ∧ (0 <= 128 < 256)%Z ∧ (0 <= 0 < 256)%Z ∧
  _ass_color (255 * 65536 + 128 * 256 + 0) = "&H000080FF&".
Proof.
  assert (Hr : (0 <= 255 < 256)%Z) by lia.
  assert (Hg : (0 <= 128 < 256)%Z) by lia.
  assert (Hb : (0 <= 0 < 256)%Z) by lia.
  split; [exact Hr|]. split; [exact Hg|]. split; [exact Hb|].
  exact (ass_color_blue_green_red 255 128 0 Hr Hg Hb).
Defined.

Lemma escape_plain_text_witness :
  (∀ c, occurs c "hello" → special c = false) ∧ _escape "hello" = "hello".
Proof.
  assert (H : ∀ c, occurs c "hello" → special c = false).
  { intros c Hc. unfold occurs in Hc. simpl in Hc.
    destruct Hc as [<-|[<-|[<-|[<-|[<-|[]]]]]]; reflexivity. }
  split; [exact H|exact (escape_plain_text "hello" H)].
Defined.

Lemma build_returns_a_document_witness :
  has_lanes (__init__ 6 3000) ∧
  Forall (λ c, text_is_string c = true) five_comments ∧
  ∃ doc L', run_build (__init__ 6 3000) five_comments 0 = (Ok doc, L').
Proof.
  assert (HL : has_lanes (__init__ 6 3000)) by (repeat split; discriminate).
  assert (Hall : Forall (λ c, text_is_string c = true) five_comments)
    by (repeat constructor).
  split; [exact HL|]. split; [exact Hall|].
  exact (build_returns_a_document Py.dec_float Py.dec_int no_repr _ _ 0 HL Hall).
Defined.

Lemma render_changes_one_pool_witness :
  ∃ event L',
    render Py.dec_float Py.dec_int no_repr (__init__ 6 3000)
      (comment "1.0,5,255" "hi") 0 = Ok (Some (event, L')) ∧
    parse_payload Py.dec_float Py.dec_int no_repr
      (Py.get (comment "1.0,5,255" "hi") "p") 0 = Some (1%Q, 5%Z, 255%Z) ∧
    scroll_tracks L' = scroll_tracks (__init__ 6 3000) ∧
    bottom_tracks L' = bottom_tracks (__init__ 6 3000) ∧
    top_tracks L' = 5%Q :: replicate 4 0%Q.
Proof.
  destruct (render Py.dec_float Py.dec_int no_repr (__init__ 6 3000)
              (comment "1.0,5,255" "hi") 0) as [[[event L']|]|] eqn:Hr;
    [|vm_compute in Hr; discriminate..].
  assert (Hp : parse_payload Py.dec_float Py.dec_int no_repr
                 (Py.get (comment "1.0,5,255" "hi") "p") 0 = Some (1%Q, 5%Z, 255%Z))
    by (vm_compute; reflexivity).
  exists event, L'. split; [reflexivity|]. split; [exact Hp|].
  destruct (render_changes_one_pool Py.dec_float Py.dec_int no_repr _ _ _ _ _ _ _ _ Hr Hp)
    as (_ & H5 & _).
  destruct (H5 eq_refl) as [Hs Hb]. split; [exact Hs|]. split; [exact Hb|].
  vm_compute in Hr. by injection Hr as <- <-.
Defined.

Lemma build_nothing_to_render_witness :
  Forall (λ c, skipped Py.dec_float Py.dec_int no_repr c 0 = true)
    [comment "abc,1,255" "dropped"; comment "2.0,4,255" "   "] ∧
  run_build (__init__ 6 3000)
    [comment "abc,1,255" "dropped"; comment "2.0,4,255" "   "] 0
  = (Ok header, __init__ 6 3000).
Proof.
  assert (H : Forall (λ c, skipped Py.dec_float Py.dec_int no_repr c 0 = true)
                [comment "abc,1,255" "dropped"; comment "2.0,4,255" "   "])
    by (repeat constructor).
  split; [exact H|].
  exact (build_nothing_to_render Py.dec_float Py.dec_int no_repr _ _ 0 H).
Defined.

End LayoutProofs.

(** ** Properties of DandanplayClient *)

Module ClientProofs.

Import Client.

Section Environment.

(** The interpreter, the network and the clock are arbitrary, as in
    [Client]; the methods are taken at them. *)
Variable json_loads : string → option (gmap string pyval).
Variable json_dumps : gmap string pyval → string.
Variable md5_hexdigest : string → string.
Variable py_repr : pyval → string.
Variable iso_timestamp : string → option Q.
Variable urljoin : string → string → string.
Variable urlencode : gmap string pyval → string.
Variable server : list request → request → result string.
Variable clock : nat → Q.

Local Abbreviation py_str := (Client.py_str py_repr).
Local Abbreviation with_authorization := (Client.with_authorization py_repr).
Local Abbreviation second_request := (Client.second_request py_repr).
Local Abbreviation time_time := (Client.time_time clock).
Local Abbreviation issued_fallback := (Client.issued_fallback clock).
Local Abbreviation now := (Client.now clock).
Local Abbreviation urlopen := (Client.urlopen server).
Local Abbreviation _load_token := (Client._load_token json_loads).
Local Abbreviation decode_payload := (Client.decode_payload json_loads).
Local Abbreviation decode := (Client.decode json_loads).
Local Abbreviation _save_token := (Client._save_token json_dumps).
Local Abbreviation _token_valid := (Client._token_valid iso_timestamp clock).
Local Abbreviation cached_valid := (Client.cached_valid iso_timestamp clock).
Local Abbreviation retry_request := (Client.retry_request json_loads py_repr server).
Local Abbreviation first_request := (Client.first_request json_dumps py_repr urljoin urlencode).
Local Abbreviation _request_with := (Client._request_with json_loads json_dumps py_repr urljoin urlencode server).
Local Abbreviation login_payload := (Client.login_payload md5_hexdigest).
Local Abbreviation login_request := (Client.login_request json_loads json_dumps md5_hexdigest py_repr urljoin urlencode server).
Local Abbreviation try_login := (Client.try_login json_loads json_dumps md5_hexdigest py_repr urljoin urlencode server).
Local Abbreviation login := (Client.login json_loads json_dumps md5_hexdigest py_repr urljoin urlencode server clock).
Local Abbreviation ensure_token := (Client.ensure_token json_loads json_dumps md5_hexdigest py_repr iso_timestamp urljoin urlencode server clock).
Local Abbreviation _request := (Client._request json_loads json_dumps md5_hexdigest py_repr iso_timestamp urljoin urlencode server clock).
Local Abbreviation match_ := (Client.match_ json_loads json_dumps md5_hexdigest py_repr iso_timestamp urljoin urlencode server clock).
Local Abbreviation is_login := (Client.is_login urljoin).
Local Abbreviation get_comments := (Client.get_comments json_loads json_dumps md5_hexdigest py_repr iso_timestamp urljoin urlencode server clock).
Local Abbreviation answer := (Client.answer json_loads server).
Local Abbreviation file_kept_or_login := (Client.file_kept_or_login json_dumps).

(** *** Facts about the token methods *)

Lemma token_valid_runs token c w :
  ∃ b w', _token_valid token (c, w) = (Ok b, (c, w')) ∧ sent w' = sent w.
Proof.
  unfold _token_valid, issued_fallback.
  destruct (negb (Py.truthy (VDict token))); [by eexists _, _|].
  destruct (Py.as_number (expires_of token)); [by eexists _, _|].
  destruct (expires_of token);
    try (destruct (Py.as_number _); by eexists _, _).
  destruct (iso_timestamp _); [by eexists _, _|].
  destruct (Py.as_number _); by eexists _, _.
Qed.

Lemma cached_valid_runs cached c w :
  ∃ b w', cached_valid cached (c, w) = (Ok b, (c, w')) ∧ sent w' = sent w.
Proof.
  unfold cached_valid. destruct cached as [token|]; [|by eexists _, _].
  destruct (Py.truthy (VDict token)); [apply token_valid_runs|by eexists _, _].
Qed.

Lemma load_token_runs c w :
  ∃ cached c', _load_token (c, w) = (Ok cached, (c', w)) ∧
    app_id c' = app_id c ∧ app_secret c' = app_secret c ∧
    username c' = username c ∧ password c' = password c.
Proof.
  unfold _load_token. destruct (_token_cache c); [by eexists _, _|].
  destruct (token_file w); by eexists _, _.
Qed.

Lemma login_request_runs c0 timestamp c w :
  let r := first_request "/api/v2/login" (Some (login_payload c0 timestamp)) None
             false VNone in
  login_request c0 timestamp (c, w)
  = (match server (sent w) r with
     | Ok payload => decode_payload payload
     | Raise e => Raise e
     end, (c, log_request r w)) ∧ is_login r.
Proof.
  split.
  - unfold login_request, _request_with, bind, try_except, ret, urlopen. simpl.
    destruct (server _ _) as [payload|e]; [reflexivity|].
    destruct e; try reflexivity.
    by rewrite andb_false_r.
  - split; reflexivity.
Qed.

Lemma try_login_runs c0 timestamp c w :
  ∃ returned c' w' r,
    try_login c0 timestamp (c, w) = (Ok returned, (c', w')) ∧
    sent w' = sent w ++ [r] ∧ is_login r.
Proof.
  pose proof (login_request_runs c0 timestamp c w) as [Hrun Hlogin].
  unfold try_login, try_except. rewrite Hrun.
  destruct (match server _ _ with Ok _ => _ | Raise _ => _ end) as [response|e].
  - destruct (Py.truthy (Py.get response "token")).
    + unfold _save_token, bind, try_except, set_token_cache, write_token_file, ret.
      destruct (writable (log_request _ w)) eqn:Hw; eexists _, _, _, _;
        (split; [reflexivity|]); split; try exact Hlogin; reflexivity.
    + eexists _, _, _, _. split; [reflexivity|]. split; [reflexivity|exact Hlogin].
  - eexists _, _, _, _. split; [reflexivity|]. split; [reflexivity|exact Hlogin].
Qed.

Lemma login_runs cached c w :
  ∃ v c' w' L, login cached (c, w) = (Ok v, (c', w')) ∧
    sent w' = sent w ++ L ∧ (length L ≤ 1)%nat ∧ Forall is_login L.
Proof.
  unfold login, bind, get_client. simpl.
  destruct (credentials_complete c); simpl.
  - destruct (try_login_runs c (Py.fmt_d (Py.int_of_float (clock (ticks w)))) c (tick w))
      as (returned & c' & w' & r & Hrun & Hsent & Hlogin).
    rewrite Hrun. exists (match returned with Some v => v | None => stale_token cached end), c', w', [r].
    split; [by destruct returned|]. split; [exact Hsent|].
    split; [simpl; lia|]. by constructor.
  - exists VNone, c, w, []. split; [reflexivity|]. split; [by rewrite app_nil_r|].
    split; [simpl; lia|constructor].
Qed.

(** [ensure_token] never raises, and opens at most one request, a login
    request without credential header. *)
Lemma ensure_token_runs st :
  ∃ v st' L, ensure_token st = (Ok v, st') ∧
    sent st'.2 = sent st.2 ++ L ∧ (length L ≤ 1)%nat ∧ Forall is_login L.
Proof.
  destruct st as [c w]. unfold ensure_token, bind.
  destruct (load_token_runs c w) as (cached & c1 & -> & _).
  destruct (cached_valid_runs cached c1 w) as (b & w1 & -> & Hs1).
  destruct cached as [token|]; [destruct b|].
  - exists (VStr (py_str (Py.get token "token"))), (c1, w1), [].
    split; [reflexivity|]. simpl. rewrite app_nil_r.
    split; [exact Hs1|]. split; [lia|constructor].
  - destruct (login_runs (Some token) c1 w1) as (v & c' & w' & L & -> & Hs & HL).
    exists v, (c', w'), L. split; [reflexivity|]. simpl. by rewrite Hs, Hs1.
  - destruct (login_runs None c1 w1) as (v & c' & w' & L & -> & Hs & HL).
    exists v, (c', w'), L. split; [reflexivity|]. simpl. by rewrite Hs, Hs1.
Qed.

(** *** The 401 retry of [_request] *)

(** The handler of the 401.  An authenticated request (with the default
    [retry=True]) whose first [urlopen] is answered by HTTP 401: the
    token cache is set to [None], [ensure_token] is called once more,
    the request is opened once more with the same URL and body, the
    Authorization header carrying the token that [ensure_token] returned
    or removed when it returned none, and the outcome of that second
    [urlopen] is the outcome of [_request], a further 401 included.  In
    all, the requests opened are the first one, the second one, and the
    login requests of the two calls of [ensure_token], at most one each.
    Where the token of the second call comes from is not said here: see
    [retry_reloads_token_file]. *)
Theorem request_retries_once_after_401 path data params st token st1 :
  ensure_token st = (Ok token, st1) →
  server (sent st1.2) (first_request path data params true token)
    = Raise (HTTPError 401) →
  let r0 := first_request path data params true token in
  let invalidated := (with_cache None st1.1, log_request r0 st1.2) in
  ∃ new_token st2 L1 L2,
    _token_cache invalidated.1 = None ∧
    ensure_token invalidated = (Ok new_token, st2) ∧
    _request path data params true true st
      = (match server (sent st2.2) (second_request new_token r0) with
         | Ok payload => decode_payload payload
         | Raise e => Raise e
         end,
         (st2.1, log_request (second_request new_token r0) st2.2)) ∧
    url (second_request new_token r0) = url r0 ∧
    body (second_request new_token r0) = body r0 ∧
    headers (second_request new_token r0) !! "Authorization"
      = (if Py.truthy new_token then Some ("Bearer " +:+ py_str new_token) else None) ∧
    sent (log_request (second_request new_token r0) st2.2)
      = sent st.2 ++ L1 ++ [r0] ++ L2 ++ [second_request new_token r0] ∧
    (length L1 ≤ 1)%nat ∧ Forall is_login L1 ∧
    (length L2 ≤ 1)%nat ∧ Forall is_login L2.
Proof.
  intros Hens H401 r0 invalidated.
  destruct (ensure_token_runs st) as (v & st1' & L1 & Hrun1 & Hs1 & Hl1 & Hlog1).
  rewrite Hens in Hrun1. injection Hrun1 as <- <-.
  destruct (ensure_token_runs invalidated) as (new_token & st2 & L2 & Hrun2 & Hs2 & Hl2 & Hlog2).
  exists new_token, st2, L1, L2.
  split; [reflexivity|]. split; [exact Hrun2|]. split.
  - unfold _request, _request_with, bind, try_except. rewrite Hens.
    fold r0. destruct st1 as [c1 w1]. unfold urlopen. simpl in H401. fold r0 in H401.
    rewrite H401. simpl.
    unfold retry_request, bind, set_token_cache.
    change (with_cache None c1, log_request r0 w1) with invalidated.
    rewrite Hrun2. destruct st2 as [c2 w2]. simpl.
    by destruct (server (sent w2) (second_request new_token r0)).
  - split; [reflexivity|]. split; [reflexivity|]. split.
    { unfold second_request, with_authorization. simpl.
      destruct (Py.truthy new_token).
      - by rewrite lookup_insert_eq.
      - by rewrite lookup_delete_eq. }
    split; [|by repeat split].
    simpl. rewrite Hs2. simpl. rewrite Hs1.
    by rewrite <- !app_assoc.
Qed.

Lemma second_request_same token path data params :
  Py.truthy token = true →
  second_request token (first_request path data params true token)
  = first_request path data params true token.
Proof.
  intros Ht. unfold Client.second_request, Client.first_request.
  cbn [url body headers andb]. rewrite Ht. f_equal.
Qed.

(** The second call of [ensure_token] finds the cache empty and reads
    token.json again.  When the file holds a token that [_token_valid]
    accepts, that token is returned and no login request is made: the
    second request carries the token of the file, and when this is the
    token that was just rejected, the second request is the first one
    again. *)
Lemma retry_reloads_token_file path data params st token st1 text saved st2 :
  ensure_token st = (Ok token, st1) →
  server (sent st1.2) (first_request path data params true token)
    = Raise (HTTPError 401) →
  token_file st1.2 = Some text →
  json_loads text = Some saved →
  Py.truthy (VDict saved) = true →
  _token_valid saved
    (with_cache (Some saved) st1.1,
     log_request (first_request path data params true token) st1.2) = (Ok true, st2) →
  let r0 := first_request path data params true token in
  let r1 := second_request (VStr (py_str (Py.get saved "token"))) r0 in
  _request path data params true true st
    = (answer (sent st2.2) r1, (st2.1, log_request r1 st2.2)) ∧
  sent (log_request r1 st2.2) = sent st1.2 ++ [r0; r1] ∧
  _token_cache st2.1 = Some saved ∧
  (token = VStr (py_str (Py.get saved "token")) → Py.truthy token = true → r1 = r0).
Proof.
  intros Hens H401 Hfile Hloads Htruthy Hvalid r0 r1.
  destruct st1 as [c1 w1]. simpl in H401, Hfile, Hvalid.
  destruct (token_valid_runs saved (with_cache (Some saved) c1) (log_request r0 w1))
    as (b & w2 & Hrun & Hsent).
  fold r0 in Hvalid. rewrite Hrun in Hvalid. injection Hvalid as -> <-.
  split; [|split; [|split]].
  - unfold Client._request, Client._request_with, bind, try_except.
    change (Client.ensure_token json_loads json_dumps md5_hexdigest py_repr iso_timestamp
              urljoin urlencode server clock st) with (ensure_token st).
    rewrite Hens. fold r0. unfold Client.urlopen. simpl. fold r0 in H401. rewrite H401.
    simpl. unfold Client.retry_request, bind, set_token_cache.
    unfold Client.ensure_token, bind, Client._load_token. simpl.
    rewrite Hfile. unfold bind, set_token_cache, ret. rewrite Hloads.
    unfold Client.cached_valid. rewrite Htruthy.
    change (Client._token_valid iso_timestamp clock saved
              (with_cache (Some saved) (with_cache None c1), log_request r0 w1))
      with (_token_valid saved (with_cache (Some saved) c1, log_request r0 w1)).
    rewrite Hrun. unfold Client.urlopen, Client.answer, Client.decode. simpl. fold r1.
    by destruct (server (sent w2) r1).
  - simpl. rewrite Hsent. simpl. by rewrite <- app_assoc.
  - reflexivity.
  - intros -> Ht. by apply second_request_same.
Qed.

(** *** The selection of [match] *)

(** C2. Whatever the response says under [isMatched]: when its list of
    matches has a first element, [match] returns that element; when the
    list is empty or absent, it returns [None]. *)
Theorem match_returns_first_candidate file_name file_size file_hash duration st response st' :
  _request "/api/v2/match"
    (Some (match_payload st.1 file_name file_size file_hash duration)) None
    (nonempty (username st.1)) true st = (Ok response, st') →
  (∀ c cs, Py.get response "matches" = VList (c :: cs) →
     match_ file_name file_size file_hash duration st = (Ok c, st')) ∧
  (Py.get response "matches" = VList [] ∨ Py.get response "matches" = VNone →
     match_ file_name file_size file_hash duration st = (Ok VNone, st')).
Proof.
  intros Hreq. unfold match_, bind, get_client, try_except. rewrite Hreq.
  unfold select_match. split.
  - intros c cs ->. simpl. by rewrite andb_true_r, Tauto.if_same.
  - intros [-> | ->]; simpl; by rewrite andb_false_r.
Qed.

(** *** The validity of a token *)

Lemma float_lt_iff (x y : Q) : Py.float_lt x y = true ↔ (x < y)%Q.
Proof.
  unfold Py.float_lt. destruct (Qle_bool y x) eqn:H; simpl.
  - apply Qle_bool_iff in H. split; [discriminate|]. intros Hlt. lra.
  - split; [|reflexivity]. intros _. apply Qnot_le_lt. intros Hle.
    apply Qle_bool_iff in Hle. congruence.
Qed.

Lemma get_nonempty (token : gmap string pyval) key :
  Py.get token key ≠ VNone → Py.truthy (VDict token) = true.
Proof.
  intros H. simpl. apply negb_true_iff, Nat.eqb_neq. intros Hsize.
  apply map_size_empty_inv in Hsize. subst token.
  apply H. unfold Py.get. by rewrite lookup_empty.
Qed.

Lemma number_truthy v e :
  Py.as_number v = Some e → ¬ (e == 0)%Q → Py.truthy v = true.
Proof.
  destruct v as [|[]|n|x| | |]; simpl; try discriminate; intros H Hne;
    injection H as <-.
  - reflexivity.
  - by destruct Hne.
  - apply negb_true_iff, Z.eqb_neq. intros ->. by destruct Hne.
  - apply negb_true_iff. destruct (Qeq_bool x 0) eqn:Hq; [|reflexivity].
    apply Qeq_bool_iff in Hq. contradiction.
Qed.

(** A number equal to zero is falsy: [v or b] is [b]. *)
Lemma zero_falsy v e b :
  Py.as_number v = Some e → (e == 0)%Q → Py.or_else v b = b.
Proof.
  intros H Hz. unfold Py.or_else.
  assert (Hf : Py.truthy v = false); [|by rewrite Hf].
  destruct v as [|[]|n|x| | |]; simpl in *; try discriminate; injection H as <-.
  - discriminate.
  - reflexivity.
  - apply negb_false_iff, Z.eqb_eq.
    unfold Qeq in Hz. simpl in Hz. lia.
  - apply negb_false_iff, Qeq_bool_iff. exact Hz.
Qed.

Lemma token_valid_numeric token e st :
  Py.as_number (expires_of token) = Some e →
  _token_valid token st = (Ok (Py.float_lt (now st) (e - 60)), (st.1, tick st.2)).
Proof.
  intros He. unfold _token_valid.
  assert (Hne : Py.truthy (VDict token) = true).
  { destruct (Py.truthy (VDict token)) eqn:Ht; [reflexivity|exfalso].
    simpl in Ht. apply negb_false_iff, Nat.eqb_eq, map_size_empty_inv in Ht.
    subst token. unfold expires_of, Py.get in He. rewrite !lookup_empty in He.
    discriminate. }
  rewrite Hne, He. by destruct st.
Qed.

Lemma expires_of_expireTime token e :
  Py.as_number (Py.get token "expireTime") = Some e → ¬ (e == 0)%Q →
  expires_of token = Py.get token "expireTime".
Proof.
  intros He Hne. unfold expires_of, Py.or_else.
  by rewrite !(number_truthy _ _ He Hne).
Qed.

(** C5, as the code has it.  A token whose expiry, as [_token_valid]
    reads it, is the number [e] is valid exactly when the clock reads
    less than [e - 60]; this is so for every number under [expireTime]
    other than zero.  With the clock at [now], not negative, an
    [expireTime] of [now + 30] makes the token invalid and one of
    [now + 120] makes it valid.  A zero under [expireTime] is passed over
    by the [or] of the three keys: the expiry is then read from
    [expiresAt] and [expire_at]. *)
Theorem token_valid_sixty_second_margin :
  (∀ token e st,
     Py.as_number (expires_of token) = Some e →
     _token_valid token st = (Ok (Py.float_lt (now st) (e - 60)), (st.1, tick st.2)) ∧
     (Py.float_lt (now st) (e - 60) = true ↔ (now st < e - 60)%Q)) ∧
  (∀ token e st,
     Py.as_number (Py.get token "expireTime") = Some e → ¬ (e == 0)%Q →
     (_token_valid token st).1 = Ok (Py.float_lt (now st) (e - 60))) ∧
  (∀ token st,
     (0 <= now st)%Q → Py.get token "expireTime" = VFloat (now st + 30) →
     (_token_valid token st).1 = Ok false) ∧
  (∀ token st,
     (0 <= now st)%Q → Py.get token "expireTime" = VFloat (now st + 120) →
     (_token_valid token st).1 = Ok true) ∧
  (∀ token e,
     Py.as_number (Py.get token "expireTime") = Some e → (e == 0)%Q →
     expires_of token = Py.or_else (Py.get token "expiresAt") (Py.get token "expire_at")).
Proof.
  assert (Hkey : ∀ token e st,
            Py.as_number (Py.get token "expireTime") = Some e → ¬ (e == 0)%Q →
            (_token_valid token st).1 = Ok (Py.float_lt (now st) (e - 60))).
  { intros token e st He Hne.
    rewrite (token_valid_numeric token e st); [reflexivity|].
    by rewrite (expires_of_expireTime _ _ He Hne). }
  split; [|split; [exact Hkey|split; [|split]]]; cycle 3.
  { intros token e He Hz. unfold expires_of.
    by rewrite (zero_falsy _ _ _ He Hz). }
  - intros token e st He. split; [by apply token_valid_numeric|apply float_lt_iff].
  - intros token st Hnow Hexp.
    rewrite (Hkey token (now st + 30)%Q st); [|by rewrite Hexp|lra].
    f_equal. destruct (Py.float_lt _ _) eqn:Hlt; [|reflexivity].
    apply float_lt_iff in Hlt. lra.
  - intros token st Hnow Hexp.
    rewrite (Hkey token (now st + 120)%Q st); [|by rewrite Hexp|lra].
    f_equal. apply float_lt_iff. lra.
Qed.

(** *** [ensure_token] without a valid cached token *)

(** C6, as the code has it.  When the cached token is absent or not
    valid: with incomplete credentials [ensure_token] returns [None] and
    opens no request, whether or not a token is cached; with complete
    credentials, when the login request raises or its response has no
    token, it returns the [token] field of the cached token if there is
    one, and [None] otherwise. *)
Theorem ensure_token_without_valid_token st cached st1 st2 :
  _load_token st = (Ok cached, st1) →
  cached_valid cached st1 = (Ok false, st2) →
  (credentials_complete st2.1 = false →
     ensure_token st = (Ok VNone, st2) ∧ sent st2.2 = sent st.2) ∧
  (credentials_complete st2.1 = true →
     ∀ outcome st3,
       login_request st2.1 (Py.fmt_d (Py.int_of_float (now st2))) (st2.1, tick st2.2)
         = (outcome, st3) →
       match outcome with
       | Raise _ => ensure_token st = (Ok (stale_token cached), st3)
       | Ok response =>
           Py.truthy (Py.get response "token") = false →
           ensure_token st = (Ok (stale_token cached), st3)
       end).
Proof.
  intros Hload Hvalid.
  assert (Hens : ensure_token st = login cached st2).
  { unfold ensure_token, bind. rewrite Hload, Hvalid. by destruct cached. }
  destruct st as [c w], st2 as [c2 w2].
  destruct (load_token_runs c w) as (cached' & c1 & Hl & _).
  rewrite Hl in Hload. injection Hload as -> <-.
  destruct (cached_valid_runs cached c1 w) as (b & w' & Hv & Hs).
  rewrite Hv in Hvalid. injection Hvalid as -> -> ->.
  split.
  - intros Hc. rewrite Hens. unfold login, bind, get_client. simpl in *.
    by rewrite Hc.
  - intros Hc outcome st3 Hreq. simpl in Hc, Hreq.
    rewrite Hens. unfold login, bind, get_client, time_time. simpl.
    rewrite Hc. simpl. unfold try_login, try_except, now. simpl.
    unfold now in Hreq. simpl in Hreq. rewrite Hreq.
    destruct outcome as [response|e]; [|reflexivity].
    by intros ->.
Qed.

(** *** Requests without retry *)

Lemma request_without_token path data params retry st :
  _request path data params false retry st
    = (answer (sent st.2) (first_request path data params false VNone),
       (st.1, log_request (first_request path data params false VNone) st.2)) ∧
  headers (first_request path data params false VNone) !! "Authorization" = None.
Proof.
  split; [|reflexivity].
  destruct st as [c w]. unfold Client._request, Client._request_with, bind, try_except,
    Client.urlopen, Client.answer, ret. simpl.
  destruct (server _ _) as [payload|e]; [reflexivity|].
  destruct e; try reflexivity. by rewrite andb_false_r.
Qed.

(** X12. A request made with [authenticated=False] asks for no token:
    it opens exactly one request, without an Authorization header, it
    leaves the client object as it was, and its outcome is the answer to
    that request, an HTTP 401 included (there is no retry). *)
Theorem unauthenticated_request_is_plain path data params retry st :
  _request path data params false retry st
    = (answer (sent st.2) (first_request path data params false VNone),
       (st.1, log_request (first_request path data params false VNone) st.2)) ∧
  headers (first_request path data params false VNone) !! "Authorization" = None.
Proof. apply request_without_token. Qed.

(** X13. An authenticated request whose [urlopen] raises anything
    but an HTTP 401, or an HTTP 401 when [retry] is false, raises that
    exception after the one request: the token cache is kept and nothing
    is opened again. *)
Theorem request_raises_without_retry path data params retry st token st1 e :
  ensure_token st = (Ok token, st1) →
  server (sent st1.2) (first_request path data params true token) = Raise e →
  e ≠ HTTPError 401 ∨ retry = false →
  _request path data params true retry st
    = (Raise e, (st1.1, log_request (first_request path data params true token) st1.2)).
Proof.
  intros Hens Hsrv Hno.
  unfold Client._request, Client._request_with, bind, try_except.
  change (Client.ensure_token json_loads json_dumps md5_hexdigest py_repr iso_timestamp
            urljoin urlencode server clock st) with (ensure_token st).
  rewrite Hens. destruct st1 as [c1 w1]. unfold Client.urlopen. simpl in *.
  rewrite Hsrv. destruct e; try reflexivity.
  destruct Hno as [Hne| ->].
  - destruct (code =? 401)%Z eqn:Hc; [|reflexivity].
    apply Z.eqb_eq in Hc. subst code. by destruct Hne.
  - by rewrite andb_false_r.
Qed.

(** *** The token cache *)

Lemma token_valid_world token c w :
  ∃ b w', _token_valid token (c, w) = (Ok b, (c, w')) ∧ (w' = w ∨ w' = tick w).
Proof.
  unfold Client._token_valid, Client.issued_fallback.
  destruct (negb (Py.truthy (VDict token))); [by eexists _, _; split; [|left]|].
  destruct (Py.as_number (expires_of token)); [by eexists _, _; split; [|right]|].
  destruct (expires_of token);
    try (destruct (Py.as_number _);
         [by eexists _, _; split; [|right]|by eexists _, _; split; [|left]]).
  destruct (iso_timestamp _); [by eexists _, _; split; [|right]|].
  destruct (Py.as_number _);
    [by eexists _, _; split; [|right]|by eexists _, _; split; [|left]].
Qed.

(** X14. With a token in the cache that [_token_valid] accepts,
    [ensure_token] returns its [token] field as a string and does
    nothing else: no request is opened, and the client object and
    token.json stay as they were. *)
Theorem ensure_token_uses_valid_cache st token st' :
  _token_cache st.1 = Some token →
  Py.truthy (VDict token) = true →
  _token_valid token st = (Ok true, st') →
  ensure_token st = (Ok (VStr (py_str (Py.get token "token"))), st') ∧
  st'.1 = st.1 ∧ sent st'.2 = sent st.2 ∧ token_file st'.2 = token_file st.2.
Proof.
  intros Hcache Htruthy Hvalid. destruct st as [c w]. simpl in Hcache.
  destruct (token_valid_world token c w) as (b & w' & Hrun & Hw).
  rewrite Hrun in Hvalid. injection Hvalid as -> <-.
  split.
  - unfold Client.ensure_token, bind, Client._load_token. rewrite Hcache.
    unfold Client.cached_valid. rewrite Htruthy.
    change (Client._token_valid iso_timestamp clock token (c, w))
      with (_token_valid token (c, w)).
    by rewrite Hrun.
  - split; [reflexivity|]. by destruct Hw as [-> | ->].
Qed.

Lemma setdefault_lookup (d : gmap string pyval) key value :
  is_Some (setdefault d key value !! key) ∧
  (∀ k, k ≠ key → setdefault d key value !! k = d !! k) ∧
  (∀ v, d !! key = Some v → setdefault d key value = d) ∧
  (d !! key = None → setdefault d key value !! key = Some value).
Proof.
  unfold setdefault. destruct (d !! key) as [v|] eqn:E.
  - split; [by rewrite E|]. split; [done|]. split; [done|discriminate].
  - split; [by rewrite lookup_insert_eq|]. split.
    + intros k Hk. by rewrite lookup_insert_ne.
    + split; [discriminate|]. intros _. by rewrite lookup_insert_eq.
Qed.

(** X15. When the cached token is absent or not valid, the
    credentials are complete and the login response carries a token,
    [ensure_token] returns that token as a string and keeps the response
    as the new token: the response as received, with the key expireTime
    added from expireAt when it had none.  The cache holds it, and
    token.json holds its dump when the file can be written. *)
Theorem ensure_token_login_success st cached st1 st2 response st3 :
  _load_token st = (Ok cached, st1) →
  cached_valid cached st1 = (Ok false, st2) →
  credentials_complete st2.1 = true →
  login_request st2.1 (Py.fmt_d (Py.int_of_float (now st2))) (st2.1, tick st2.2)
    = (Ok response, st3) →
  Py.truthy (Py.get response "token") = true →
  ∃ st4,
    ensure_token st = (Ok (VStr (py_str (Py.get response "token"))), st4) ∧
    _token_cache st4.1
      = Some (setdefault response "expireTime" (Py.get response "expireAt")) ∧
    (writable st3.2 = true →
       token_file st4.2
       = Some (json_dumps (setdefault response "expireTime" (Py.get response "expireAt")))) ∧
    (writable st3.2 = false → token_file st4.2 = token_file st3.2) ∧
    sent st4.2 = sent st3.2 ∧
    (∀ k, k ≠ "expireTime" →
       setdefault response "expireTime" (Py.get response "expireAt") !! k = response !! k) ∧
    (response !! "expireTime" = None →
       setdefault response "expireTime" (Py.get response "expireAt") !! "expireTime"
       = Some (Py.get response "expireAt")).
Proof.
  intros Hload Hvalid Hc Hreq Htok.
  assert (Hens : ensure_token st = login cached st2).
  { unfold Client.ensure_token, bind.
    change (Client._load_token json_loads st) with (_load_token st). rewrite Hload.
    change (Client.cached_valid iso_timestamp clock cached st1)
      with (cached_valid cached st1). rewrite Hvalid. by destruct cached. }
  destruct st2 as [c2 w2], st3 as [c3 w3]. simpl in *.
  destruct (setdefault_lookup response "expireTime" (Py.get response "expireAt"))
    as (_ & Hother & _ & Hnew).
  set (saved := setdefault response "expireTime" (Py.get response "expireAt")) in *.
  exists (with_cache (Some saved) c3,
          if writable w3
          then {| token_file := Some (json_dumps saved); writable := writable w3;
                  sent := sent w3; ticks := ticks w3 |}
          else w3).
  split.
  - rewrite Hens. unfold Client.login, bind, get_client, Client.time_time. simpl.
    rewrite Hc. simpl. unfold Client.try_login, try_except.
    unfold Client.now in Hreq. simpl in Hreq.
    change (Client.login_request json_loads json_dumps md5_hexdigest py_repr urljoin
              urlencode server c2 (Py.fmt_d (Py.int_of_float (clock (ticks w2))))
              (c2, tick w2))
      with (login_request c2 (Py.fmt_d (Py.int_of_float (clock (ticks w2)))) (c2, tick w2)).
    rewrite Hreq, Htok.
    unfold Client._save_token, bind, try_except, set_token_cache, write_token_file, ret.
    fold saved. by destruct (writable w3).
  - simpl. split; [reflexivity|].
    split; [by intros ->|]. split; [by intros ->|].
    split; [by destruct (writable w3)|]. split; [exact Hother|exact Hnew].
Qed.

(** X16. [_save_token] never raises, and the token it was given is
    what [_load_token] returns next, from the cache, also when token.json
    could not be written. *)
Theorem saved_token_is_cached payload st :
  (_save_token payload st).1 = Ok tt ∧
  _load_token (_save_token payload st).2
    = (Ok (Some payload), (_save_token payload st).2) ∧
  sent (_save_token payload st).2.2 = sent st.2.
Proof.
  destruct st as [c w].
  unfold Client._save_token, bind, try_except, set_token_cache, write_token_file, ret.
  destruct (writable w); simpl; by repeat split.
Qed.

(** X17. When token.json can be written and [json.loads] reads back
    what [json.dumps] wrote, a token saved by [_save_token] is the one a
    client with an empty cache loads from the file. *)
Theorem saved_token_is_reloaded payload st :
  writable st.2 = true →
  json_loads (json_dumps payload) = Some payload →
  token_file (_save_token payload st).2.2 = Some (json_dumps payload) ∧
  _load_token (with_cache None (_save_token payload st).2.1, (_save_token payload st).2.2)
    = (Ok (Some payload), (_save_token payload st).2).
Proof.
  intros Hw Hround. destruct st as [c w]. simpl in Hw.
  unfold Client._save_token, bind, try_except, set_token_cache, write_token_file, ret.
  rewrite Hw. simpl. split; [reflexivity|].
  unfold Client._load_token. simpl. unfold bind, set_token_cache, ret.
  by rewrite Hround.
Qed.

(** X18. A token without any of the three expiry keys: when its
    loginTime is a number other than zero, it is valid for seven days
    from it (604800 seconds); when it has no issue time either, it is
    valid exactly when its [token] field is truthy, and the clock is not
    read. *)
Theorem token_valid_without_expiry token st :
  token !! "expireTime" = None →
  token !! "expiresAt" = None →
  token !! "expire_at" = None →
  (∀ i, Py.as_number (Py.get token "loginTime") = Some i → ¬ (i == 0)%Q →
     _token_valid token st
     = (Ok (Py.float_lt (now st) (i + 7 * 86400)), (st.1, tick st.2))) ∧
  (token !! "loginTime" = None → token !! "issuedAt" = None →
     _token_valid token st = (Ok (Py.truthy (Py.get token "token")), st)).
Proof.
  intros H1 H2 H3.
  assert (Hexp : expires_of token = VNone).
  { unfold expires_of, Py.get. by rewrite H1, H2, H3. }
  split.
  - intros i Hi Hne.
    assert (Ht : Py.truthy (VDict token) = true).
    { apply (get_nonempty token "loginTime"). intros E. rewrite E in Hi. discriminate. }
    unfold Client._token_valid, Client.issued_fallback. rewrite Ht, Hexp. simpl.
    unfold Py.or_else. rewrite (number_truthy _ _ Hi Hne), Hi. by destruct st.
  - intros H4 H5.
    unfold Client._token_valid, Client.issued_fallback. rewrite Hexp. simpl.
    destruct (size token =? 0)%nat eqn:Hsize; simpl.
    + apply Nat.eqb_eq, map_size_empty_inv in Hsize. subst token.
      unfold Py.get. by rewrite lookup_empty.
    + unfold Py.or_else, Py.get. by rewrite H4, H5.
Qed.

(** *** [match] and [get_comments] *)

(** X19. Whatever the request of [match] raises, [match] returns
    [None] and raises nothing. *)
Theorem match_returns_none_on_error file_name file_size file_hash duration st e st' :
  _request "/api/v2/match"
    (Some (match_payload st.1 file_name file_size file_hash duration)) None
    (nonempty (username st.1)) true st = (Raise e, st') →
  match_ file_name file_size file_hash duration st = (Ok VNone, st').
Proof.
  intros Hreq. unfold Client.match_, bind, get_client, try_except.
  change (Client._request json_loads json_dumps md5_hexdigest py_repr iso_timestamp
            urljoin urlencode server clock) with _request.
  by rewrite Hreq.
Qed.

(** X20. [get_comments] opens one request, without an Authorization
    header and without asking for a token, and leaves the client object
    as it was.  When the request is answered by a dict it returns the
    value under [comments], or the empty list when that value is absent
    or falsy; when the request raises, [get_comments] raises the same
    exception. *)
Theorem get_comments_is_unauthenticated episode_id since st :
  ∃ r,
    headers r !! "Authorization" = None ∧
    get_comments episode_id since st
    = (match answer (sent st.2) r with
       | Ok response =>
           Ok (if Py.truthy (Py.get response "comments")
               then Py.get response "comments" else VList [], response)
       | Raise e => Raise e
       end, (st.1, log_request r st.2)).
Proof.
  unfold Client.get_comments, bind, get_client.
  match goal with
  | |- context [Client._request _ _ _ _ _ _ _ _ _ ?p ?d ?q false true st] =>
      destruct (request_without_token p d q true st) as [Hrun Hhdr];
      exists (first_request p d q false VNone)
  end.
  split; [exact Hhdr|].
  change (Client._request json_loads json_dumps md5_hexdigest py_repr iso_timestamp
            urljoin urlencode server clock) with _request.
  rewrite Hrun. by destruct (answer _ _).
Qed.

(** *** token.json is never deleted *)

Lemma file_kept_refl w : file_kept_or_login w w.
Proof. by left. Qed.

Lemma file_kept_trans w1 w2 w3 :
  file_kept_or_login w1 w2 → file_kept_or_login w2 w3 → file_kept_or_login w1 w3.
Proof.
  intros H12 [H23|(p & Hp & Ht)].
  - destruct H12 as [H12|(p & Hp & Ht)].
    + left. congruence.
    + right. exists p. split; [congruence|exact Ht].
  - right. by exists p.
Qed.

Lemma try_login_file c0 timestamp c w :
  ∃ returned c' w',
    try_login c0 timestamp (c, w) = (Ok returned, (c', w')) ∧ file_kept_or_login w w'.
Proof.
  pose proof (login_request_runs c0 timestamp c w) as [Hrun _].
  unfold Client.try_login, try_except.
  change (Client.login_request json_loads json_dumps md5_hexdigest py_repr urljoin
            urlencode server c0 timestamp (c, w)) with (login_request c0 timestamp (c, w)).
  rewrite Hrun.
  destruct (match server _ _ with Ok _ => _ | Raise _ => _ end) as [response|e].
  - destruct (Py.truthy (Py.get response "token")) eqn:Htok.
    + unfold Client._save_token, bind, try_except, set_token_cache, write_token_file, ret.
      destruct (writable (log_request _ w)) eqn:Hw; eexists _, _, _;
        (split; [reflexivity|]).
      * right. eexists. split; [reflexivity|].
        destruct (setdefault_lookup response "expireTime" (Py.get response "expireAt"))
          as (_ & Hother & _).
        unfold Py.get. rewrite Hother by discriminate. exact Htok.
      * by left.
    + eexists _, _, _. split; [reflexivity|by left].
  - eexists _, _, _. split; [reflexivity|by left].
Qed.

Lemma login_file cached c w :
  ∃ v c' w', login cached (c, w) = (Ok v, (c', w')) ∧ file_kept_or_login w w'.
Proof.
  unfold Client.login, bind, get_client. simpl.
  destruct (credentials_complete c); simpl.
  - destruct (try_login_file c (Py.fmt_d (Py.int_of_float (clock (ticks w)))) c (tick w))
      as (returned & c' & w' & Hrun & Hfile).
    change (Client.try_login json_loads json_dumps md5_hexdigest py_repr urljoin urlencode
              server c (Py.fmt_d (Py.int_of_float (clock (ticks w)))) (c, tick w))
      with (try_login c (Py.fmt_d (Py.int_of_float (clock (ticks w)))) (c, tick w)).
    rewrite Hrun.
    exists (match returned with Some v => v | None => stale_token cached end), c', w'.
    split; [by destruct returned|exact Hfile].
  - exists VNone, c, w. split; [reflexivity|by left].
Qed.

Lemma ensure_token_file st :
  ∃ v st', ensure_token st = (Ok v, st') ∧ file_kept_or_login st.2 st'.2.
Proof.
  destruct st as [c w]. unfold Client.ensure_token, bind.
  destruct (load_token_runs c w) as (cached & c1 & Hload & _).
  change (Client._load_token json_loads (c, w)) with (_load_token (c, w)).
  rewrite Hload.
  assert (Hv : ∃ b w1, cached_valid cached (c1, w) = (Ok b, (c1, w1)) ∧
                       token_file w1 = token_file w).
  { unfold Client.cached_valid. destruct cached as [token|]; [|by eexists _, _].
    destruct (Py.truthy (VDict token)); [|by eexists _, _].
    destruct (token_valid_world token c1 w) as (b & w1 & Hrun & Hw).
    exists b, w1. split; [exact Hrun|]. by destruct Hw as [-> | ->]. }
  destruct Hv as (b & w1 & Hvalid & Hfile1).
  change (Client.cached_valid iso_timestamp clock cached (c1, w))
    with (cached_valid cached (c1, w)).
  rewrite Hvalid.
  assert (Hstep : file_kept_or_login w w1) by (by left).
  destruct (login_file cached c1 w1) as (v & c' & w' & Hlogin & Hfile).
  change (Client.login json_loads json_dumps md5_hexdigest py_repr urljoin urlencode
            server clock cached (c1, w1)) with (login cached (c1, w1)).
  destruct cached as [token|]; [destruct b|].
  - eexists _, _. split; [reflexivity|exact Hstep].
  - rewrite Hlogin. eexists _, _. split; [reflexivity|].
    by eapply file_kept_trans.
  - rewrite Hlogin. eexists _, _. split; [reflexivity|].
    by eapply file_kept_trans.
Qed.

(** X21. Neither [ensure_token] nor [_request] deletes or empties
    token.json: after either call, its text is what it was, or it is the
    dump of a login response that carries a token.  The invalidation
    after an HTTP 401 concerns the cache only. *)
Theorem token_file_is_never_deleted :
  (∀ st, file_kept_or_login st.2 (ensure_token st).2.2) ∧
  (∀ path data params authenticated retry st,
     file_kept_or_login st.2 (_request path data params authenticated retry st).2.2).
Proof.
  split.
  - intros st. destruct (ensure_token_file st) as (v & st' & -> & H). exact H.
  - intros path data params authenticated retry st.
    destruct authenticated.
    + unfold Client._request, Client._request_with, bind, try_except.
      destruct (ensure_token_file st) as (token & st1 & Hens & H1).
      change (Client.ensure_token json_loads json_dumps md5_hexdigest py_repr
                iso_timestamp urljoin urlencode server clock) with ensure_token.
      rewrite Hens. destruct st1 as [c1 w1]. unfold Client.urlopen.
      destruct (server _ _) as [payload|e]; [exact H1|].
      destruct e; try exact H1.
      destruct ((code =? 401)%Z && true && retry); [|exact H1].
      unfold Client.retry_request, bind, set_token_cache.
      match goal with
      | |- context [ensure_token ?s] =>
          destruct (ensure_token_file s) as (new_token & st2 & Hens2 & H2);
          rewrite Hens2
      end.
      destruct st2 as [c2 w2]. simpl in *.
      assert (H12 : file_kept_or_login (snd st) w2)
        by (eapply file_kept_trans; [exact H1|exact H2]).
      by destruct (server _ _).
    + destruct (request_without_token path data params retry st) as [-> _].
      by left.
Qed.

End Environment.

(** *** The model on a concrete environment *)

(** The cached token [old] is taken for valid and sent; the server
    answers 401; the cache is dropped, a login gives [fresh], and the
    second request carries it. *)
Example request_retry_trace :
  let r := run_request the_server "/api/v2/match" None None true true
             (with_account (Some old_token)) in
  List.map (λ q, (url q, headers q !! "Authorization")) (sent r.2.2)
  = [(API_BASE +:+ "/api/v2/match", Some "Bearer old");
     (login_url, None);
     (API_BASE +:+ "/api/v2/match", Some "Bearer fresh")].
Proof. vm_compute. reflexivity. Qed.

(** C1, where the code departs from it.  The client has logged in: the
    token [old] is in the cache and in token.json, and the credentials
    are complete.  The server rejects the token with HTTP 401.
    [_request] sets the cache to [None], but [ensure_token] then reads
    token.json again, takes the token of the file for valid and returns
    it: no login request is made, the second request is the first one
    again, with the rejected token, and the second 401 is raised.  From
    the same state without the file, the call logs in and the second
    request carries the fresh token. *)
Theorem request_retry_resends_rejected_token :
  let r := run_first_request "/api/v2/match" (VStr "old") in
  credentials_complete logged_in.1 = true ∧
  _token_cache logged_in.1 = Some old_token ∧
  token_file logged_in.2 = Some "TOKEN" ∧
  headers r !! "Authorization" = Some "Bearer old" ∧
  run_request_saved logged_in
    = (Raise (HTTPError 401),
       (logged_in.1,
        {| token_file := Some "TOKEN"; writable := true; sent := [r; r];
           ticks := 0 |})) ∧
  List.map (λ q, (url q, headers q !! "Authorization"))
    (sent (run_request_saved (with_account (Some old_token))).2.2)
  = [(API_BASE +:+ "/api/v2/match", Some "Bearer old");
     (login_url, None);
     (API_BASE +:+ "/api/v2/match", Some "Bearer fresh")].
Proof. intros r. repeat split; vm_compute; reflexivity. Qed.

Lemma request_retry_witness :
  run_ensure_token the_server (with_account (Some old_token))
    = (Ok (VStr "old"), with_account (Some old_token)) ∧
  the_server (sent (with_account (Some old_token)).2)
    (run_first_request "/api/v2/match" (VStr "old")) = Raise (HTTPError 401) ∧
  ∃ new_token st2,
    run_ensure_token the_server
      (with_cache None (with_account (Some old_token)).1,
       log_request (run_first_request "/api/v2/match" (VStr "old"))
         (with_account (Some old_token)).2) = (Ok new_token, st2) ∧
    run_request the_server "/api/v2/match" None None true true
      (with_account (Some old_token))
    = (match the_server (sent st2.2)
               (second_request the_repr new_token
                  (run_first_request "/api/v2/match" (VStr "old"))) with
       | Ok payload => decode_payload the_json_loads payload
       | Raise e => Raise e
       end,
       (st2.1,
        log_request
          (second_request the_repr new_token
             (run_first_request "/api/v2/match" (VStr "old"))) st2.2)).
Proof.
  assert (H1 : run_ensure_token the_server (with_account (Some old_token))
               = (Ok (VStr "old"), with_account (Some old_token)))
    by (vm_compute; reflexivity).
  assert (H2 : the_server (sent (with_account (Some old_token)).2)
                 (run_first_request "/api/v2/match" (VStr "old"))
               = Raise (HTTPError 401))
    by (vm_compute; reflexivity).
  split; [exact H1|]. split; [exact H2|].
  destruct (request_retries_once_after_401 the_json_loads the_json_dumps the_md5
              the_repr the_iso the_urljoin the_urlencode the_server the_clock
              "/api/v2/match" None None _ _ _ H1 H2)
    as (new_token & st2 & L1 & L2 & _ & Hens & Hreq & _).
  exists new_token, st2. split; [exact Hens|exact Hreq].
Defined.

Lemma match_first_candidate_witness :
  let st := with_account (Some old_token) in
  let r := match_request_of st st in
  r = (Ok (response_of r), r.2) ∧
  Py.get (response_of r) "isMatched" = VBool false ∧
  Py.get (response_of r) "matches" = VList [VInt 123; VInt 456] ∧
  run_match the_server "a.mkv" (Some 5%Z) (Some "abc") (Some 0%Z) st
    = (Ok (VInt 123), r.2).
Proof.
  intros st r.
  assert (H1 : r = (Ok (response_of r), r.2)) by (vm_compute; reflexivity).
  assert (H2 : Py.get (response_of r) "matches" = VList [VInt 123; VInt 456])
    by (vm_compute; reflexivity).
  split; [exact H1|]. split; [vm_compute; reflexivity|]. split; [exact H2|].
  exact (proj1 (match_returns_first_candidate the_json_loads the_json_dumps the_md5
                  the_repr the_iso the_urljoin the_urlencode the_server the_clock
                  "a.mkv" (Some 5%Z) (Some "abc") (Some 0%Z) st _ _ H1) _ _ H2).
Defined.

Lemma token_valid_margin_witness :
  let st := with_account None in
  (0 <= now the_clock st)%Q ∧
  Py.get (token_expiring_in 30) "expireTime" = VFloat (now the_clock st + 30) ∧
  (_token_valid the_iso the_clock (token_expiring_in 30) st).1 = Ok false ∧
  Py.get (token_expiring_in 120) "expireTime" = VFloat (now the_clock st + 120) ∧
  (_token_valid the_iso the_clock (token_expiring_in 120) st).1 = Ok true.
Proof.
  intros st.
  assert (H0 : (0 <= now the_clock st)%Q) by discriminate.
  assert (H30 : Py.get (token_expiring_in 30) "expireTime"
                = VFloat (now the_clock st + 30)) by reflexivity.
  assert (H120 : Py.get (token_expiring_in 120) "expireTime"
                 = VFloat (now the_clock st + 120)) by reflexivity.
  destruct (token_valid_sixty_second_margin the_iso the_clock)
    as (_ & _ & Hlow & Hhigh & _).
  split; [exact H0|]. split; [exact H30|].
  split; [exact (Hlow _ st H0 H30)|]. split; [exact H120|].
  exact (Hhigh _ st H0 H120).
Defined.

(** C5, counterexample.  The number under [expireTime] is zero and the
    clock reads 1000, which is not less than 0 - 60; the zero is falsy,
    the [or] of the three keys gives [None], no issue time is present,
    and the token is taken for valid because its [token] field is not
    empty. *)
Lemma token_valid_with_zero_expire_time :
  let st := with_account None in
  Py.get token_expiring_at_zero "expireTime" = VInt 0 ∧
  Py.as_number (Py.get token_expiring_at_zero "expireTime") = Some 0%Q ∧
  Py.float_lt (now the_clock st) (0 - 60) = false ∧
  expires_of token_expiring_at_zero = VNone ∧
  _token_valid the_iso the_clock token_expiring_at_zero st = (Ok true, st).
Proof. repeat split; vm_compute; reflexivity. Qed.

(** C6, counterexample.  A token is cached but expired, and no user
    name or password is configured: [ensure_token] returns [None], not
    the cached token. *)
Lemma ensure_token_returns_none_despite_cached_token :
  let st := without_account (Some expired_token) in
  _token_cache st.1 = Some expired_token ∧
  Py.get expired_token "token" = VStr "old" ∧
  (cached_valid the_iso the_clock (Some expired_token) st).1 = Ok false ∧
  credentials_complete st.1 = false ∧
  (run_ensure_token the_server st).1 = Ok VNone.
Proof. repeat split; vm_compute; reflexivity. Qed.

Lemma ensure_token_stale_witness :
  let st := with_account (Some expired_token) in
  let st2 := (st.1, tick st.2) in
  let st3 := (login_request the_json_loads the_json_dumps the_md5 the_repr the_urljoin
                the_urlencode no_server st2.1
                (Py.fmt_d (Py.int_of_float (now the_clock st2))) (st2.1, tick st2.2)).2 in
  _load_token the_json_loads st = (Ok (Some expired_token), st) ∧
  cached_valid the_iso the_clock (Some expired_token) st = (Ok false, st2) ∧
  credentials_complete st2.1 = true ∧
  login_request the_json_loads the_json_dumps the_md5 the_repr the_urljoin
    the_urlencode no_server st2.1
    (Py.fmt_d (Py.int_of_float (now the_clock st2))) (st2.1, tick st2.2)
    = (Raise URLError, st3) ∧
  run_ensure_token no_server st = (Ok (VStr "old"), st3).
Proof.
  intros st st2 st3.
  assert (H1 : _load_token the_json_loads st = (Ok (Some expired_token), st))
    by reflexivity.
  assert (H2 : cached_valid the_iso the_clock (Some expired_token) st = (Ok false, st2))
    by (vm_compute; reflexivity).
  assert (H3 : credentials_complete st2.1 = true) by reflexivity.
  assert (H4 : login_request the_json_loads the_json_dumps the_md5 the_repr the_urljoin
                 the_urlencode no_server st2.1
                 (Py.fmt_d (Py.int_of_float (now the_clock st2))) (st2.1, tick st2.2)
               = (Raise URLError, st3))
    by (vm_compute; reflexivity).
  split; [exact H1|]. split; [exact H2|]. split; [exact H3|]. split; [exact H4|].
  exact (proj2 (ensure_token_without_valid_token the_json_loads the_json_dumps the_md5
                  the_repr the_iso the_urljoin the_urlencode no_server the_clock
                  st _ _ _ H1 H2) H3 _ _ H4).
Defined.

Lemma request_raises_without_retry_witness :
  let st := with_account (Some old_token) in
  run_ensure_token no_server st = (Ok (VStr "old"), st) ∧
  no_server (sent st.2) (run_first_request "/api/v2/match" (VStr "old")) = Raise URLError ∧
  (URLError ≠ HTTPError 401 ∨ true = false) ∧
  run_request no_server "/api/v2/match" None None true true st
    = (Raise URLError,
       (st.1, log_request (run_first_request "/api/v2/match" (VStr "old")) st.2)).
Proof.
  intros st.
  assert (H1 : run_ensure_token no_server st = (Ok (VStr "old"), st))
    by (vm_compute; reflexivity).
  assert (H2 : no_server (sent st.2) (run_first_request "/api/v2/match" (VStr "old"))
               = Raise URLError) by reflexivity.
  assert (H3 : URLError ≠ HTTPError 401 ∨ true = false) by (left; discriminate).
  split; [exact H1|]. split; [exact H2|]. split; [exact H3|].
  exact (request_raises_without_retry the_json_loads the_json_dumps the_md5 the_repr
           the_iso the_urljoin the_urlencode no_server the_clock
           "/api/v2/match" None None true st _ _ _ H1 H2 H3).
Defined.

Lemma ensure_token_uses_valid_cache_witness :
  let st := with_account (Some old_token) in
  _token_cache st.1 = Some old_token ∧
  Py.truthy (VDict old_token) = true ∧
  _token_valid the_iso the_clock old_token st = (Ok true, st) ∧
  run_ensure_token no_server st = (Ok (VStr "old"), st) ∧
  sent st.2 = [].
Proof.
  intros st.
  assert (H1 : _token_cache st.1 = Some old_token) by reflexivity.
  assert (H2 : Py.truthy (VDict old_token) = true) by (vm_compute; reflexivity).
  assert (H3 : _token_valid the_iso the_clock old_token st = (Ok true, st))
    by (vm_compute; reflexivity).
  split; [exact H1|]. split; [exact H2|]. split; [exact H3|].
  split; [|reflexivity].
  exact (proj1 (ensure_token_uses_valid_cache the_json_loads the_json_dumps the_md5
                  the_repr the_iso the_urljoin the_urlencode no_server the_clock
                  st old_token st H1 H2 H3)).
Defined.

Lemma ensure_token_login_success_witness :
  let st := with_account None in
  let response : gmap string pyval := <["token" := VStr "fresh"]> ∅ in
  _load_token the_json_loads st = (Ok None, st) ∧
  cached_valid the_iso the_clock None st = (Ok false, st) ∧
  credentials_complete st.1 = true ∧
  run_login_request the_server st = (Ok response, (run_login_request the_server st).2) ∧
  Py.truthy (Py.get response "token") = true ∧
  ∃ st4,
    run_ensure_token the_server st = (Ok (VStr "fresh"), st4) ∧
    _token_cache st4.1 = Some (<["expireTime" := VNone]> response) ∧
    token_file st4.2 = Some "{}".
Proof.
  intros st response.
  assert (H1 : _load_token the_json_loads st = (Ok None, st)) by reflexivity.
  assert (H2 : cached_valid the_iso the_clock None st = (Ok false, st)) by reflexivity.
  assert (H3 : credentials_complete st.1 = true) by reflexivity.
  assert (H4 : run_login_request the_server st
               = (Ok response, (run_login_request the_server st).2))
    by (vm_compute; reflexivity).
  assert (H5 : Py.truthy (Py.get response "token") = true) by (vm_compute; reflexivity).
  split; [exact H1|]. split; [exact H2|]. split; [exact H3|]. split; [exact H4|].
  split; [exact H5|].
  destruct (ensure_token_login_success the_json_loads the_json_dumps the_md5 the_repr
              the_iso the_urljoin the_urlencode the_server the_clock
              st None st st response _ H1 H2 H3 H4 H5)
    as (st4 & Hens & Hcache & Hfile & _).
  exists st4. split; [exact Hens|]. split; [exact Hcache|].
  exact (Hfile eq_refl).
Defined.

Lemma saved_token_is_reloaded_witness :
  let st := with_account None in
  writable st.2 = true ∧
  the_json_loads (the_json_dumps data_response) = Some data_response ∧
  token_file (_save_token the_json_dumps data_response st).2.2 = Some "{}" ∧
  _load_token the_json_loads
    (with_cache None (_save_token the_json_dumps data_response st).2.1,
     (_save_token the_json_dumps data_response st).2.2)
  = (Ok (Some data_response), (_save_token the_json_dumps data_response st).2).
Proof.
  intros st.
  assert (H1 : writable st.2 = true) by reflexivity.
  assert (H2 : the_json_loads (the_json_dumps data_response) = Some data_response)
    by reflexivity.
  split; [exact H1|]. split; [exact H2|].
  exact (saved_token_is_reloaded the_json_loads the_json_dumps data_response st H1 H2).
Defined.

Lemma token_valid_without_expiry_witness :
  let st := with_account None in
  token_issued_at 500 !! "expireTime" = None ∧
  token_issued_at 500 !! "expiresAt" = None ∧
  token_issued_at 500 !! "expire_at" = None ∧
  Py.as_number (Py.get (token_issued_at 500) "loginTime") = Some (inject_Z 500) ∧
  _token_valid the_iso the_clock (token_issued_at 500) st
    = (Ok (Py.float_lt (now the_clock st) (inject_Z 500 + 7 * 86400)), (st.1, tick st.2)) ∧
  Py.float_lt (now the_clock st) (inject_Z 500 + 7 * 86400) = true.
Proof.
  intros st.
  assert (H1 : token_issued_at 500 !! "expireTime" = None) by (vm_compute; reflexivity).
  assert (H2 : token_issued_at 500 !! "expiresAt" = None) by (vm_compute; reflexivity).
  assert (H3 : token_issued_at 500 !! "expire_at" = None) by (vm_compute; reflexivity).
  assert (H4 : Py.as_number (Py.get (token_issued_at 500) "loginTime")
               = Some (inject_Z 500)) by (vm_compute; reflexivity).
  split; [exact H1|]. split; [exact H2|]. split; [exact H3|]. split; [exact H4|].
  split; [|reflexivity].
  apply (proj1 (token_valid_without_expiry the_iso the_clock _ st H1 H2 H3) _ H4).
  discriminate.
Defined.

Lemma match_returns_none_on_error_witness :
  let st := with_account (Some old_token) in
  let st' := (match_request_of_with no_server st st).2 in
  match_request_of_with no_server st st = (Raise URLError, st') ∧
  run_match no_server "a.mkv" (Some 5%Z) (Some "abc") (Some 0%Z) st = (Ok VNone, st').
Proof.
  intros st st'.
  assert (H : match_request_of_with no_server st st = (Raise URLError, st'))
    by (vm_compute; reflexivity).
  split; [exact H|].
  exact (match_returns_none_on_error the_json_loads the_json_dumps the_md5 the_repr
           the_iso the_urljoin the_urlencode no_server the_clock
           "a.mkv" (Some 5%Z) (Some "abc") (Some 0%Z) st _ _ H).
Defined.

End ClientProofs.

(** ** Properties of the fingerprint *)

Module ServiceProofs.

Import Service.

Section Device.

(** The file object, the cancellation flag and the digest are
    arbitrary, as in [Service]; the functions are taken at them. *)
Variable file : Type.
Variable open_file : string → result file.
Variable read_chunk : Z → file → result (list byte) * file.
Variable cancelled : nat → bool.
Variable md5_hexdigest : list byte → string.

Local Abbreviation hash_loop := (Service.hash_loop file read_chunk cancelled).
Local Abbreviation hashed_bytes := (Service.hashed_bytes file open_file read_chunk cancelled).
Local Abbreviation _hash_file := (Service._hash_file file open_file read_chunk cancelled md5_hexdigest).
Local Abbreviation honours_length := (Service.honours_length file read_chunk).
Local Abbreviation plain_file := (Service.plain_file file read_chunk).

Lemma hash_loop_bounded (Hlen : honours_length) fuel : ∀ remaining k f hashed out,
  (0 <= remaining)%Z →
  hash_loop fuel remaining k f hashed = Some out →
  (Z.of_nat (length out) <= Z.of_nat (length hashed) + remaining)%Z.
Proof.
  induction fuel as [|fuel IH]; intros remaining k f hashed out Hrem; simpl.
  - destruct (remaining <=? 0)%Z; intros H; injection H as <-; lia.
  - destruct (remaining <=? 0)%Z eqn:Hz; [intros H; injection H as <-; lia|].
    apply Z.leb_gt in Hz.
    destruct (cancelled k); [discriminate|].
    destruct (read_chunk (Z.min CHUNK remaining) f) as [[chunk|e] f'] eqn:Hread;
      [|discriminate].
    apply Hlen in Hread.
    destruct chunk as [|b chunk]; [intros H; injection H as <-; lia|].
    intros H. apply IH in H; [|unfold CHUNK in *; lia].
    rewrite length_app in H. unfold CHUNK in *. lia.
Qed.

(** X22. When every reading gives at most the number of bytes it
    was asked for, a digest returned by [_hash_file] is the digest of at
    most 16 MiB (16777216 bytes), however long the file is. *)
Theorem hash_file_at_most_limit path digest :
  honours_length →
  _hash_file path = Some digest →
  ∃ bytes, digest = md5_hexdigest bytes ∧ (Z.of_nat (length bytes) <= 16777216)%Z.
Proof.
  intros Hlen. unfold Service._hash_file, Service.hashed_bytes.
  destruct (is_remote path); [discriminate|].
  destruct (open_file path) as [f|e]; [|discriminate].
  destruct (Service.hash_loop _ _ _ _ _ _ _ _) as [bytes|] eqn:Hloop; [|discriminate].
  intros H. injection H as <-. exists bytes. split; [reflexivity|].
  apply (hash_loop_bounded Hlen) in Hloop; [|unfold HASH_LIMIT; lia].
  unfold HASH_LIMIT in Hloop. simpl length in Hloop. lia.
Qed.

Lemma take_then_rest {A : Type} (m n : nat) (l : list A) :
  (m ≤ n)%nat →
  take m l ++ take (n - length (take m l)) (drop m l) = take n l.
Proof.
  intros Hmn. destruct (decide (m ≤ length l)%nat) as [Hm|Hm].
  - rewrite length_take, Nat.min_l by exact Hm.
    rewrite take_take_drop. f_equal. lia.
  - rewrite (take_ge l m), (drop_ge l m), take_nil, app_nil_r by lia.
    symmetry. apply take_ge. lia.
Qed.

Lemma hash_loop_plain content (Hplain : plain_file content)
    (Hrun : ∀ k, cancelled k = false) fuel :
  ∀ remaining k f hashed,
    (0 <= remaining)%Z → (Z.to_nat remaining ≤ fuel)%nat →
    hash_loop fuel remaining k f hashed
    = Some (hashed ++ take (Z.to_nat remaining) (content f)).
Proof.
  induction fuel as [|fuel IH]; intros remaining k f hashed Hrem Hfuel; simpl.
  - assert (remaining = 0%Z) as -> by lia. simpl. by rewrite app_nil_r.
  - destruct (remaining <=? 0)%Z eqn:Hz.
    + apply Z.leb_le in Hz. assert (remaining = 0%Z) as -> by lia.
      simpl. by rewrite app_nil_r.
    + apply Z.leb_gt in Hz. rewrite Hrun.
      destruct (Hplain (Z.min CHUNK remaining) f) as (f' & Hread & Hrest);
        [unfold CHUNK; lia|].
      rewrite Hread.
      set (m := Z.to_nat (Z.min CHUNK remaining)) in *.
      assert (Hm : (1 ≤ m ≤ Z.to_nat remaining)%nat) by (unfold m, CHUNK; lia).
      destruct (take m (content f)) as [|b chunk] eqn:Hchunk.
      * assert (Hnil : content f = []).
        { destruct (content f); [reflexivity|].
          destruct m; [lia|discriminate]. }
        by rewrite Hnil, take_nil, app_nil_r.
      * assert (Hlen : (length (b :: chunk) ≤ m)%nat).
        { rewrite <- Hchunk, length_take. lia. }
        rewrite IH; [|simpl length in *; lia..].
        rewrite Hrest, <- app_assoc. do 2 f_equal.
        replace (Z.to_nat (remaining - Z.of_nat (length (b :: chunk))))
          with (Z.to_nat remaining - length (b :: chunk))%nat by lia.
        rewrite <- Hchunk. apply take_then_rest. lia.
Qed.

(** X23. For a path that is not remote, a plain file that opens and
    a flag that is never set, [_hash_file] returns the digest of the
    first 16 MiB of the file, or of the whole file when it is shorter:
    the loop always comes to its end. *)
Theorem hash_file_of_plain_file content path f :
  plain_file content →
  (∀ k, cancelled k = false) →
  is_remote path = false →
  open_file path = Ok f →
  _hash_file path = Some (md5_hexdigest (take (Z.to_nat HASH_LIMIT) (content f))).
Proof.
  intros Hplain Hrun Hlocal Hopen.
  unfold Service._hash_file, Service.hashed_bytes. rewrite Hlocal, Hopen.
  change (Service.hash_loop file read_chunk cancelled) with hash_loop.
  rewrite (hash_loop_plain content Hplain Hrun); [reflexivity| |apply Nat.le_refl].
  unfold HASH_LIMIT. lia.
Qed.

(** X24. [_hash_file] returns [None] for a path that starts with
    http, rtmp or udp, whatever the file object does; when the file
    cannot be opened; and when the flag is set at the first test of the
    loop. *)
Theorem hash_file_gives_up path :
  (is_remote path = true → _hash_file path = None) ∧
  (∀ e, open_file path = Raise e → _hash_file path = None) ∧
  (cancelled 0 = true → _hash_file path = None).
Proof.
  unfold Service._hash_file, Service.hashed_bytes. split; [|split].
  - by intros ->.
  - intros e ->. by destruct (is_remote path).
  - intros Hc. destruct (is_remote path); [reflexivity|].
    destruct (open_file path) as [f|e]; [|reflexivity].
    destruct (Z.to_nat HASH_LIMIT) as [|fuel] eqn:Hfuel;
      [unfold HASH_LIMIT in Hfuel; lia|].
    simpl. change (HASH_LIMIT <=? 0)%Z with false. cbv iota. by rewrite Hc.
Qed.

End Device.

(** *** The model on concrete inputs *)

Lemma hash_file_at_most_limit_witness :
  honours_length (list byte) read_list ∧
  _hash_file (list byte) (open_list [x01; x02; x03]%byte) read_list never kept_bytes
    "/videos/a.mkv" = Some (kept_bytes [x01; x02; x03]%byte) ∧
  ∃ bytes, kept_bytes [x01; x02; x03]%byte = kept_bytes bytes ∧
           (Z.of_nat (length bytes) <= 16777216)%Z.
Proof.
  assert (H1 : honours_length (list byte) read_list).
  { intros n f chunk f' H. injection H as <- <-. rewrite length_take. lia. }
  assert (H2 : _hash_file (list byte) (open_list [x01; x02; x03]%byte) read_list never
                 kept_bytes "/videos/a.mkv" = Some (kept_bytes [x01; x02; x03]%byte))
    by reflexivity.
  split; [exact H1|]. split; [exact H2|].
  exact (hash_file_at_most_limit (list byte) (open_list [x01; x02; x03]%byte) read_list
           never kept_bytes "/videos/a.mkv" _ H1 H2).
Defined.

Lemma hash_file_of_plain_file_witness :
  plain_file (list byte) read_list (λ f, f) ∧
  (∀ k, never k = false) ∧
  is_remote "/videos/a.mkv" = false ∧
  open_list [x01; x02; x03]%byte "/videos/a.mkv" = Ok [x01; x02; x03]%byte ∧
  _hash_file (list byte) (open_list [x01; x02; x03]%byte) read_list never kept_bytes
    "/videos/a.mkv"
  = Some (kept_bytes (take (Z.to_nat HASH_LIMIT) [x01; x02; x03]%byte)).
Proof.
  assert (H1 : plain_file (list byte) read_list (λ f, f)).
  { intros n f Hn. by eexists. }
  assert (H2 : ∀ k, never k = false) by reflexivity.
  assert (H3 : is_remote "/videos/a.mkv" = false) by reflexivity.
  assert (H4 : open_list [x01; x02; x03]%byte "/videos/a.mkv" = Ok [x01; x02; x03]%byte)
    by reflexivity.
  split; [exact H1|]. split; [exact H2|]. split; [exact H3|]. split; [exact H4|].
  exact (hash_file_of_plain_file (list byte) (open_list [x01; x02; x03]%byte) read_list
           never kept_bytes (λ f, f) "/videos/a.mkv" _ H1 H2 H3 H4).
Defined.

End ServiceProofs.
